(** * KVM Manager Service: the port-switch transaction and its helpers

    A shallow embedding of [kvm-mgr-service/main.py].

    - Python [int] is [Z]; [str] is [string], read as a sequence of code
      points below 256; [bytes] is [list byte].
    - [PORT_COMMANDS] and the result of [get_port_names_from_env] are
      dictionaries, modelled as [gmap Z string]; the process environment read
      by [os.getenv] is a [gmap string string].
    - The serial device and [time.sleep] are reached through a [Transport]:
      one answer per library call, each either a value or a raised
      exception.  Every call is logged in a trace of [event]s, so "no device
      access" and "the delay sits between the write and the read" are
      statements about that trace.
    - Exceptions carry their class and their [str(e)].  Only classes derived
      from [Exception] are modelled; interpreter exits delivered
      asynchronously (KeyboardInterrupt, SystemExit) are not library faults
      and are outside the model.
    - Calls to [logger] do not change a returned value and are left out,
      except where building the message can raise: the f-string of a
      message that prints an unbounded [int] is kept as a step of its own. *)

From Stdlib Require Import ZArith QArith Ascii Strings.Byte List Sorted Permutation Lia.
From Stdlib Require Import DecimalString.
From Stdlib Require DecimalPos DecimalZ.
From stdpp Require Import gmap strings list fin_maps.

Local Open Scope Z_scope.

(** ** Exceptions and outcomes *)

(** The classes the handlers of this file tell apart.  [Exception] stands
    for an instance of any other class derived from [Exception] (OSError,
    ValueError, KeyError, AttributeError, ...). *)
Inductive exn_class := SerialException | PermissionError | Exception.

Record exn := mk_exn {
  exn_cls : exn_class;
  exn_str : string   (* str(e) *)
}.

(** [isinstance(e, cls)]: [serial.SerialException] derives from [IOError]
    and [PermissionError] from [OSError]; neither derives from the other,
    and both derive from [Exception]. *)
Definition isinstance (e : exn) (cls : exn_class) : bool :=
  match cls, exn_cls e with
  | Exception, _ => true
  | SerialException, SerialException => true
  | PermissionError, PermissionError => true
  | _, _ => false
  end.

Inductive outcome (A : Type) :=
  | Return (a : A)
  | Raise (e : exn).
Arguments Return {A} a.
Arguments Raise {A} e.

(** ** Python values *)

Module Py.

(** The decimal text of an integer: digits, with a leading minus sign for
    negative numbers.  This is what [str(n)] and [f"{n}"] give for an [int]
    of at most 4300 digits; it is used as such only on integers known to be
    that small (port numbers from 1 to 10, version numbers, errno values).
    The conversion of an arbitrary [int] is [format_int] below. *)
Definition str_int (n : Z) : string := NilZero.string_of_int (Z.to_int n).

(** The least positive integer that CPython refuses to convert to text:
    [sys.int_max_str_digits] is 4300 by default, and an [int] of more
    digits than that makes [str] and f-strings raise. *)
Definition int_str_bound : Z := 10 ^ 4300.

(** [str(n)] and [f"{n}"] for an arbitrary [int]: the decimal text, or a
    ValueError when [n] has more than 4300 digits. *)
Definition format_int (n : Z) : outcome string :=
  if Z.abs n <? int_str_bound then Return (str_int n)
  else Raise (mk_exn Exception
                "Exceeds the limit (4300 digits) for integer string conversion; use sys.set_int_max_str_digits() to increase the limit").

(** Truthiness of a [str]: non-empty. *)
Definition truthy (s : string) : bool :=
  match s with EmptyString => false | String _ _ => true end.

(** [a or b] on integers: [a] unless it is zero. *)
Definition or_int (a b : Z) : Z := if a =? 0 then b else a.

Definition code (c : ascii) : Z := Z.of_N (N_of_ascii c).

(** [str.isspace] on one code point below 256: TAB, LF, VT, FF, CR, the
    four separators FS, GS, RS, US, the space, NEL and the no-break space. *)
Definition isspace (c : ascii) : bool :=
  let n := code c in
  ((9 <=? n) && (n <=? 13)) || ((28 <=? n) && (n <=? 32))
  || (n =? 133) || (n =? 160).

Fixpoint lstrip (s : string) : string :=
  match s with
  | EmptyString => EmptyString
  | String c s' => if isspace c then lstrip s' else s
  end.

(** Drops trailing white space: a character survives when it is not white
    space or when something after it survives. *)
Fixpoint rstrip (s : string) : string :=
  match s with
  | EmptyString => EmptyString
  | String c s' =>
      match rstrip s' with
      | EmptyString => if isspace c then EmptyString else String c EmptyString
      | r => String c r
      end
  end.

(** [s.strip()] *)
Definition strip (s : string) : string := rstrip (lstrip s).

(** [bytes.decode('ascii', errors='ignore')]: bytes of value 128 and above
    are dropped, the others become the character of the same code. *)
Definition is_ascii_byte (b : byte) : bool := (Byte.to_N b <? 128)%N.

Fixpoint decode_ascii_ignore (bs : list byte) : string :=
  match bs with
  | [] => EmptyString
  | b :: bs' =>
      if is_ascii_byte b
      then String (ascii_of_byte b) (decode_ascii_ignore bs')
      else decode_ascii_ignore bs'
  end.

(** [str.lower] on one code point below 256: A-Z, and the Latin-1 capitals
    0xC0-0xDE apart from the multiplication sign 0xD7, move up by 32. *)
Definition lower_char (c : ascii) : ascii :=
  let n := code c in
  if ((65 <=? n) && (n <=? 90))
     || ((192 <=? n) && (n <=? 222) && negb (n =? 215))
  then ascii_of_N (Z.to_N (n + 32)) else c.

Fixpoint lower (s : string) : string :=
  match s with
  | EmptyString => EmptyString
  | String c s' => String (lower_char c) (lower s')
  end.

(** [needle in hay] on strings: [needle] occurs as a contiguous run. *)
Fixpoint contains (needle hay : string) : bool :=
  String.prefix needle hay
  || match hay with
     | EmptyString => false
     | String _ hay' => contains needle hay'
     end.

(** [s.encode('ascii')]: the bytes of the code points, or a
    UnicodeEncodeError (a ValueError) when a code point is 128 or above.
    The position and the character named in the message are left out. *)
Definition encode_ascii (s : string) : outcome (list byte) :=
  let cs := String.list_ascii_of_string s in
  if forallb (λ c, code c <? 128) cs
  then Return (map byte_of_ascii cs)
  else Raise (mk_exn Exception
                "'ascii' codec can't encode character: ordinal not in range(128)").

(** [d[k]] on a dictionary: the value, or KeyError, whose [str] is the
    [repr] of the key.  (The text of a KeyError is built when it is asked
    for; the one lookup of the service comes after the validation of the
    port, so it never raises.) *)
Definition dict_getitem (d : gmap Z string) (k : Z) : outcome string :=
  match d !! k with
  | Some v => Return v
  | None => Raise (mk_exn Exception (str_int k))
  end.

End Py.

(** ** Constants of the MLEEDA KVM1001A protocol *)

Definition PORT_COMMANDS : gmap Z string :=
  list_to_map
    [ (1, "X1,1$"); (2, "X2,1$"); (3, "X3,1$"); (4, "X4,1$"); (5, "X5,1$");
      (6, "X6,1$"); (7, "X7,1$"); (8, "X8,1$"); (9, "X9,1$"); (10, "XA,1$") ].

(** [list(range(1, 11))] *)
Definition AVAILABLE_PORTS : list Z := seqZ 1 10.

Inductive ByteSize := FIVEBITS | SIXBITS | SEVENBITS | EIGHTBITS.
Inductive Parity := PARITY_NONE | PARITY_EVEN | PARITY_ODD | PARITY_MARK | PARITY_SPACE.
Inductive StopBits := STOPBITS_ONE | STOPBITS_ONE_POINT_FIVE | STOPBITS_TWO.

Record SerialConfig := {
  baudrate : Z;
  bytesize : ByteSize;
  parity : Parity;
  stopbits : StopBits;
  timeout : Q;
  write_timeout : Q
}.

Definition SERIAL_CONFIG : SerialConfig := {|
  baudrate := 115200;
  bytesize := EIGHTBITS;
  parity := PARITY_NONE;
  stopbits := STOPBITS_ONE;
  timeout := 1 # 1;
  write_timeout := 1 # 1
|}.

(** ** Response models *)

Record SerialPortInfo := {
  device : string;
  description : string
}.

Record SwitchResponse := {
  success : bool;
  port : Z;
  command : string;
  response : string;
  error : option string
}.

Definition validate_port_number (port : Z) : bool :=
  (1 <=? port) && (port <=? 10).

(** ** The serial transport *)

(** One library call on the serial device or the clock. *)
Inductive event :=
  | EOpen (port : string) (cfg : SerialConfig)  (* serial.Serial(port=.., **cfg) *)
  | EResetInput                                 (* ser.reset_input_buffer() *)
  | EResetOutput                                (* ser.reset_output_buffer() *)
  | EWrite (data : list byte)                   (* ser.write(data) *)
  | EFlush                                      (* ser.flush() *)
  | ESleep (seconds : Q)                        (* time.sleep(seconds) *)
  | EInWaiting                                  (* ser.in_waiting *)
  | ERead (size : Z)                            (* ser.read(size) *)
  | EClose.                                     (* ser.__exit__ -> ser.close() *)

(** What pyserial and [time] answer to each call. *)
Record Transport := {
  serial_open : string → SerialConfig → outcome unit;
  serial_reset_input_buffer : outcome unit;
  serial_reset_output_buffer : outcome unit;
  serial_write : list byte → outcome unit;
  serial_flush : outcome unit;
  time_sleep : Q → outcome unit;
  serial_in_waiting : outcome Z;
  serial_read : Z → outcome (list byte);
  serial_close : outcome unit
}.

(** A computation that logs the library calls it makes and either returns
    or raises. *)
Definition io (A : Type) : Type := list event → outcome A * list event.

Definition io_ret {A} (a : A) : io A := λ tr, (Return a, tr).

Definition io_bind {A B} (m : io A) (k : A → io B) : io B :=
  λ tr, match m tr with
        | (Return a, tr') => k a tr'
        | (Raise e, tr') => (Raise e, tr')
        end.

Declare Scope io_scope.
Delimit Scope io_scope with io.
Notation "x <- m ;; k" := (io_bind m (λ x, k))
  (at level 100, m at next level, right associativity) : io_scope.
Notation "m ;;; k" := (io_bind m (λ _, k))
  (at level 100, right associativity) : io_scope.

(** A pure step that may raise. *)
Definition lift {A} (r : outcome A) : io A := λ tr, (r, tr).

(** A library call: it is logged, then answers. *)
Definition call {A} (e : event) (r : outcome A) : io A :=
  λ tr, (r, tr ++ [e]).

(** [with serial.Serial(port=port, **cfg) as ser: body].  The constructor
    opens the device; when it raises, nothing is closed.  Otherwise
    [__exit__] closes the device on every way out of the body, and an
    exception raised by [close] replaces the body's outcome. *)
Definition with_serial {A} (T : Transport) (port : string) (cfg : SerialConfig)
    (body : io A) : io A :=
  λ tr,
    match call (EOpen port cfg) (serial_open T port cfg) tr with
    | (Raise e, tr1) => (Raise e, tr1)
    | (Return _, tr1) =>
        let '(r, tr2) := body tr1 in
        match call EClose (serial_close T) tr2 with
        | (Raise e, tr3) => (Raise e, tr3)
        | (Return _, tr3) => (r, tr3)
        end
    end.

(** [try: body except C1 as e: h1 ... except Cn as e: hn]: the first
    clause whose class the exception is an instance of handles it; with no
    such clause it propagates. *)
Definition try_except {A} (body : io A)
    (handlers : list (exn_class * (exn → io A))) : io A :=
  λ tr,
    match body tr with
    | (Return a, tr') => (Return a, tr')
    | (Raise e, tr') =>
        match find (λ h, isinstance e h.1) handlers with
        | Some h => h.2 e tr'
        | None => (Raise e, tr')
        end
    end.

(** ** The port-switch transaction *)

Local Open Scope io_scope.

(** The body of the [with] block. *)
Definition serial_exchange (T : Transport) (port_num : Z) (command : string)
    : io SwitchResponse :=
  call EResetInput (serial_reset_input_buffer T) ;;;
  call EResetOutput (serial_reset_output_buffer T) ;;;
  data <- lift (Py.encode_ascii command) ;;
  call (EWrite data) (serial_write T data) ;;;
  call EFlush (serial_flush T) ;;;
  call (ESleep (1 # 2)) (time_sleep T (1 # 2)) ;;;
  waiting <- call EInWaiting (serial_in_waiting T) ;;
  let size := Py.or_int waiting 1024 in
  response_bytes <- call (ERead size) (serial_read T size) ;;
  let response := Py.strip (Py.decode_ascii_ignore response_bytes) in
  io_ret {| success := true; port := port_num; command := command;
            response := response; error := None |}.

Definition failure (port_num : Z) (command error_msg : string) : SwitchResponse :=
  {| success := false; port := port_num; command := command;
     response := ""; error := Some error_msg |}.

Definition switch_kvm_port (T : Transport) (serial_port : string) (port_num : Z)
    : io SwitchResponse :=
  if negb (validate_port_number port_num) then
    (* the f-string of the error is built before the record, outside the try *)
    shown <- lift (Py.format_int port_num) ;;
    io_ret (failure port_num ""
              ("Invalid port number: " +:+ shown +:+ ". Must be 1-10."))
  else
    command <- lift (Py.dict_getitem PORT_COMMANDS port_num) ;;
    try_except
      (with_serial T serial_port SERIAL_CONFIG (serial_exchange T port_num command))
      [ (SerialException, λ e,
           io_ret (failure port_num command
                     ("Serial communication failed: " +:+ exn_str e)));
        (PermissionError, λ e,
           io_ret (failure port_num command
                     ("Access denied to serial port " +:+ serial_port +:+ ": "
                      +:+ exn_str e)));
        (Exception, λ e,
           io_ret (failure port_num command
                     ("Unexpected error: " +:+ exn_str e))) ].

Local Close Scope io_scope.

(** One call from an empty log. *)
Definition run {A} (m : io A) : outcome A * list event := m [].

(** ** Serial port discovery *)

(** The attributes of pyserial's [ListPortInfo] that the service reads.
    [description] is [None] when the platform back end found no text. *)
Module ListPortInfo.
Record t := {
  device : string;
  description : option string
}.
End ListPortInfo.

Definition outcome_bind {A B} (r : outcome A) (k : A → outcome B) : outcome B :=
  match r with
  | Return a => k a
  | Raise e => Raise e
  end.

Definition FILTER_KEYWORDS : list string :=
  ["usb"; "serial"; "ch340"; "ftdi"; "cp210"].

(** [port.description.lower()]; on [None] an AttributeError. *)
Definition description_lower (port : ListPortInfo.t) : outcome string :=
  match ListPortInfo.description port with
  | Some d => Return (Py.lower d)
  | None => Raise (mk_exn Exception "'NoneType' object has no attribute 'lower'")
  end.

(** [any(keyword in port.description.lower() for keyword in keywords)]:
    the generator evaluates the lowered description once per keyword and
    stops at the first hit. *)
Fixpoint any_keyword (port : ListPortInfo.t) (keywords : list string) : outcome bool :=
  match keywords with
  | [] => Return false
  | keyword :: rest =>
      outcome_bind (description_lower port) (λ d,
        if Py.contains keyword d then Return true else any_keyword port rest)
  end.

(** [port.description or f"Serial Port {port.device}"] *)
Definition description_or_default (port : ListPortInfo.t) : string :=
  match ListPortInfo.description port with
  | Some d => if Py.truthy d then d else "Serial Port " +:+ ListPortInfo.device port
  | None => "Serial Port " +:+ ListPortInfo.device port
  end.

(** The [for port in ports] loop, [serial_ports] being the list built so far. *)
Fixpoint collect_ports (ports : list ListPortInfo.t) (serial_ports : list SerialPortInfo)
    : outcome (list SerialPortInfo) :=
  match ports with
  | [] => Return serial_ports
  | port :: rest =>
      outcome_bind (any_keyword port FILTER_KEYWORDS) (λ hit,
        if (hit : bool)
        then collect_ports rest
               (serial_ports ++ [ {| device := ListPortInfo.device port;
                                     description := description_or_default port |} ])
        else collect_ports rest serial_ports)
  end.

(** [l.sort(key=...)] on string keys: a stable sort, ascending in the
    code-point order of the keys.  Each element goes behind the elements
    already placed whose key is not greater. *)
Fixpoint insert_by_key {A} (key : A → string) (x : A) (l : list A) : list A :=
  match l with
  | [] => [x]
  | y :: l' =>
      if String.ltb (key x) (key y) then x :: l else y :: insert_by_key key x l'
  end.

Definition sort_by_key {A} (key : A → string) (l : list A) : list A :=
  foldl (λ sorted x, insert_by_key key x sorted) [] l.

(** [comports] is what [serial.tools.list_ports.comports()] answers. *)
Definition get_serial_ports (comports : outcome (list ListPortInfo.t))
    : outcome (list SerialPortInfo) :=
  let body :=
    outcome_bind comports (λ ports,
    outcome_bind (collect_ports ports []) (λ serial_ports,
    Return (sort_by_key device serial_ports))) in
  match body with
  | Return serial_ports => Return serial_ports
  | Raise e => if isinstance e Exception then Return [] else Raise e
  end.

(** ** Friendly port names *)

(** [environ] is the process environment read by [os.getenv]. *)
Definition port_name (environ : gmap string string) (port : Z) : string :=
  let env_key := "KVM_PORT_" +:+ Py.str_int port +:+ "_NAME" in
  match environ !! env_key with
  | Some env_value =>
      if Py.truthy env_value then env_value else "Server " +:+ Py.str_int port
  | None => "Server " +:+ Py.str_int port
  end.

Definition get_port_names_from_env (environ : gmap string string) : gmap Z string :=
  foldl (λ port_names port, <[port := port_name environ port]> port_names)
        ∅ AVAILABLE_PORTS.

(** ** Sample transports *)

(** Every call succeeds; the device reports [waiting] bytes and the read
    delivers [reply]. *)
Definition healthy_transport (waiting : Z) (reply : list byte) : Transport := {|
  serial_open := λ _ _, Return ();
  serial_reset_input_buffer := Return ();
  serial_reset_output_buffer := Return ();
  serial_write := λ _, Return ();
  serial_flush := Return ();
  time_sleep := λ _, Return ();
  serial_in_waiting := Return waiting;
  serial_read := λ _, Return reply;
  serial_close := Return ()
|}.


(** The write raises [e]. *)
Definition failing_write_transport (e : exn) : Transport := {|
  serial_open := λ _ _, Return ();
  serial_reset_input_buffer := Return ();
  serial_reset_output_buffer := Return ();
  serial_write := λ _, Raise e;
  serial_flush := Return ();
  time_sleep := λ _, Return ();
  serial_in_waiting := Return 0;
  serial_read := λ _, Return [];
  serial_close := Return ()
|}.

(** ** The protocol's command formula *)

(** The entry the protocol prescribes for a port: X, the port digit (A for
    port 10), then [,1$]. *)
Definition protocol_command (port : Z) : string :=
  if port =? 10 then "XA,1$" else "X" +:+ Py.str_int port +:+ ",1$".

(** ** The paths of the transaction *)

(** Every way the body of the [with] block can run for a command whose
    ASCII bytes are [data]: the outcome and the calls made, in order. *)
Inductive exchange_path (T : Transport) (port_num : Z) (cmd : string)
    (data : list byte) : outcome SwitchResponse → list event → Prop :=
  | reset_input_raises e :
      serial_reset_input_buffer T = Raise e →
      exchange_path T port_num cmd data (Raise e) [EResetInput]
  | reset_output_raises e :
      serial_reset_input_buffer T = Return () →
      serial_reset_output_buffer T = Raise e →
      exchange_path T port_num cmd data (Raise e) [EResetInput; EResetOutput]
  | write_raises e :
      serial_reset_input_buffer T = Return () →
      serial_reset_output_buffer T = Return () →
      serial_write T data = Raise e →
      exchange_path T port_num cmd data (Raise e)
        [EResetInput; EResetOutput; EWrite data]
  | flush_raises e :
      serial_reset_input_buffer T = Return () →
      serial_reset_output_buffer T = Return () →
      serial_write T data = Return () →
      serial_flush T = Raise e →
      exchange_path T port_num cmd data (Raise e)
        [EResetInput; EResetOutput; EWrite data; EFlush]
  | sleep_raises e :
      serial_reset_input_buffer T = Return () →
      serial_reset_output_buffer T = Return () →
      serial_write T data = Return () →
      serial_flush T = Return () →
      time_sleep T (1 # 2) = Raise e →
      exchange_path T port_num cmd data (Raise e)
        [EResetInput; EResetOutput; EWrite data; EFlush; ESleep (1 # 2)]
  | in_waiting_raises e :
      serial_reset_input_buffer T = Return () →
      serial_reset_output_buffer T = Return () →
      serial_write T data = Return () →
      serial_flush T = Return () →
      time_sleep T (1 # 2) = Return () →
      serial_in_waiting T = Raise e →
      exchange_path T port_num cmd data (Raise e)
        [EResetInput; EResetOutput; EWrite data; EFlush; ESleep (1 # 2);
         EInWaiting]
  | read_raises waiting e :
      serial_reset_input_buffer T = Return () →
      serial_reset_output_buffer T = Return () →
      serial_write T data = Return () →
      serial_flush T = Return () →
      time_sleep T (1 # 2) = Return () →
      serial_in_waiting T = Return waiting →
      serial_read T (Py.or_int waiting 1024) = Raise e →
      exchange_path T port_num cmd data (Raise e)
        [EResetInput; EResetOutput; EWrite data; EFlush; ESleep (1 # 2);
         EInWaiting; ERead (Py.or_int waiting 1024)]
  | read_returns waiting raw :
      serial_reset_input_buffer T = Return () →
      serial_reset_output_buffer T = Return () →
      serial_write T data = Return () →
      serial_flush T = Return () →
      time_sleep T (1 # 2) = Return () →
      serial_in_waiting T = Return waiting →
      serial_read T (Py.or_int waiting 1024) = Return raw →
      exchange_path T port_num cmd data
        (Return {| success := true; port := port_num; command := cmd;
                   response := Py.strip (Py.decode_ascii_ignore raw);
                   error := None |})
        [EResetInput; EResetOutput; EWrite data; EFlush; ESleep (1 # 2);
         EInWaiting; ERead (Py.or_int waiting 1024)].

(** The same for the whole [with] statement: the device is opened first
    and, once open, closed last. *)
Inductive transaction_path (T : Transport) (serial_port : string) (port_num : Z)
    (cmd : string) (data : list byte)
    : outcome SwitchResponse → list event → Prop :=
  | open_raises e :
      serial_open T serial_port SERIAL_CONFIG = Raise e →
      transaction_path T serial_port port_num cmd data (Raise e)
        [EOpen serial_port SERIAL_CONFIG]
  | close_returns r evs :
      serial_open T serial_port SERIAL_CONFIG = Return () →
      exchange_path T port_num cmd data r evs →
      serial_close T = Return () →
      transaction_path T serial_port port_num cmd data r
        (EOpen serial_port SERIAL_CONFIG :: evs ++ [EClose])
  | close_raises r evs e :
      serial_open T serial_port SERIAL_CONFIG = Return () →
      exchange_path T port_num cmd data r evs →
      serial_close T = Raise e →
      transaction_path T serial_port port_num cmd data (Raise e)
        (EOpen serial_port SERIAL_CONFIG :: evs ++ [EClose]).

(** The error text chosen by the [except] clauses for a raised exception. *)
Definition fault_message (serial_port : string) (e : exn) : string :=
  match exn_cls e with
  | SerialException => "Serial communication failed: " +:+ exn_str e
  | PermissionError =>
      "Access denied to serial port " +:+ serial_port +:+ ": " +:+ exn_str e
  | Exception => "Unexpected error: " +:+ exn_str e
  end.

(** What [switch_kvm_port] returns once the transaction has ended in [r]. *)
Definition settle (serial_port : string) (port_num : Z) (cmd : string)
    (r : outcome SwitchResponse) : SwitchResponse :=
  match r with
  | Return resp => resp
  | Raise e => failure port_num cmd (fault_message serial_port e)
  end.

(** Every library call of one transaction returns, and the read delivers
    [raw], for a command whose ASCII bytes are [data]. *)
Definition transport_succeeds (T : Transport) (serial_port : string)
    (data raw : list byte) : Prop :=
  serial_open T serial_port SERIAL_CONFIG = Return ()
  ∧ serial_reset_input_buffer T = Return ()
  ∧ serial_reset_output_buffer T = Return ()
  ∧ serial_write T data = Return ()
  ∧ serial_flush T = Return ()
  ∧ time_sleep T (1 # 2) = Return ()
  ∧ (∃ waiting, serial_in_waiting T = Return waiting
                ∧ serial_read T (Py.or_int waiting 1024) = Return raw)
  ∧ serial_close T = Return ().

(** ** Vocabulary for trimmed text *)

Definition all_space (s : string) : Prop :=
  Forall (λ c, Py.isspace c = true) (String.list_ascii_of_string s).

Definition first_char (s : string) : option ascii :=
  match s with
  | EmptyString => None
  | String c _ => Some c
  end.

Fixpoint last_char (s : string) : option ascii :=
  match s with
  | EmptyString => None
  | String c EmptyString => Some c
  | String _ s' => last_char s'
  end.

(** Neither end of [s] is a white-space character. *)
Definition trimmed (s : string) : Prop :=
  (∀ c, first_char s = Some c → Py.isspace c = false)
  ∧ (∀ c, last_char s = Some c → Py.isspace c = false).

(** The bytes [b"  OK\r\n"]. *)
Definition ok_reply : list byte := [x20; x20; x4f; x4b; x0d; x0a].





(** ** Vocabulary for port discovery *)

(** [keyword] occurs in [text] when letter case is ignored: some
    contiguous run of [text] equals [keyword] up to case. *)
Definition occurs_ignoring_case (keyword text : string) : Prop :=
  ∃ pre mid post,
    text = pre +:+ mid +:+ post ∧ Py.lower mid = Py.lower keyword.

(** Ascending order of the keys, by code points. *)
Definition key_le {A} (key : A → string) (a b : A) : Prop :=
  String.leb (key a) (key b) = true.

(** Ascending order of the device names. *)
Definition device_le : SerialPortInfo → SerialPortInfo → Prop := key_le device.

(** What the filter guarantees of an entry of the result. *)
Definition keyword_matched (info : SerialPortInfo) : Prop :=
  ∃ keyword, keyword ∈ FILTER_KEYWORDS
             ∧ occurs_ignoring_case keyword (description info).

(** ** The default serial port *)

(** A [for port in serial_ports] loop that returns at the first port that
    passes its test is [find]; [serial_ports[0]] is the head of the list. *)
Definition get_default_serial_port (comports : outcome (list ListPortInfo.t))
    : outcome (option string) :=
  outcome_bind (get_serial_ports comports) (λ serial_ports,
    match serial_ports with
    | [] => Return None
    | first :: _ =>
        match find (λ port, Py.contains "/dev/ttyUSB0" (device port)) serial_ports with
        | Some port => Return (Some (device port))
        | None =>
            match find (λ port, Py.contains "ttyUSB" (device port)
                                || Py.contains "USB" (description port))
                       serial_ports with
            | Some port => Return (Some (device port))
            | None => Return (Some (device first))
            end
        end
    end).

(** ** The HTTP endpoints *)

(** What a route handler hands to the framework: a response model, or an
    [HTTPException] with its status code and detail. *)
Inductive http_outcome (A : Type) :=
  | Respond (a : A)
  | HTTPException (status_code : Z) (detail : string).
Arguments Respond {A} a.
Arguments HTTPException {A} status_code detail.

Module HealthResponse.
Record t := {
  status : string;
  service : string;
  version : string;
  python_version : string;
  serial_ports_count : Z
}.
End HealthResponse.

Module SerialPortsResponse.
Record t := {
  serial_ports : list SerialPortInfo;
  default_port : option string
}.
End SerialPortsResponse.

Module PortsResponse.
Record t := {
  available_ports : list Z;
  commands : gmap string string;
  port_names : gmap Z string
}.
End PortsResponse.

(** [health_check]: [version_info] is [sys.version_info] (major, minor,
    micro).  There is no [try] around the enumeration. *)
Definition health_check (version_info : Z * Z * Z)
    (comports : outcome (list ListPortInfo.t)) : outcome HealthResponse.t :=
  outcome_bind (get_serial_ports comports) (λ serial_ports,
    let '(major, minor, micro) := version_info in
    Return {| HealthResponse.status := "healthy";
              HealthResponse.service := "KVM Manager Service";
              HealthResponse.version := "1.0.0";
              HealthResponse.python_version :=
                Py.str_int major +:+ "." +:+ Py.str_int minor +:+ "."
                +:+ Py.str_int micro;
              HealthResponse.serial_ports_count := Z.of_nat (length serial_ports) |}).

(** [get_serial_ports_endpoint]: the ports are enumerated twice, once by
    [get_serial_ports] and once more inside [get_default_serial_port];
    [comports1] and [comports2] are the two answers of the enumeration. *)
Definition get_serial_ports_endpoint
    (comports1 comports2 : outcome (list ListPortInfo.t))
    : http_outcome SerialPortsResponse.t :=
  let body :=
    outcome_bind (get_serial_ports comports1) (λ serial_ports,
    outcome_bind (get_default_serial_port comports2) (λ default_port,
    Return {| SerialPortsResponse.serial_ports := serial_ports;
              SerialPortsResponse.default_port := default_port |})) in
  match body with
  | Return r => Respond r
  | Raise e => HTTPException 500 ("Failed to get serial ports: " +:+ exn_str e)
  end.

(** [{str(port): command for port, command in PORT_COMMANDS.items()}]: a
    later item with the same key would replace an earlier one. *)
Definition commands_by_name : gmap string string :=
  foldl (λ commands item, <[Py.str_int item.1 := item.2]> commands)
        ∅ (map_to_list PORT_COMMANDS).

(** [get_ports] *)
Definition get_ports (environ : gmap string string) : http_outcome PortsResponse.t :=
  let body :=
    Return {| PortsResponse.available_ports := AVAILABLE_PORTS;
              PortsResponse.commands := commands_by_name;
              PortsResponse.port_names := get_port_names_from_env environ |} in
  match body with
  | Return r => Respond r
  | Raise e => HTTPException 500 ("Failed to get ports: " +:+ exn_str e)
  end.

(** The declaration of the [port] parameter of [/switch],
    [Query(..., ge=1, le=10)], and the values it accepts.  The framework
    checks the declaration and calls the handler only with a value it
    accepts. *)
Record Query := { query_ge : Z; query_le : Z }.

Definition port_query : Query := {| query_ge := 1; query_le := 10 |}.

Definition query_accepts (q : Query) (value : Z) : bool :=
  (query_ge q <=? value) && (value <=? query_le q).

(** [switch_port], the handler of [/switch], as a function of its two
    arguments.  [path_exists] is what [Path(p).exists()] answers for a
    path.  The body starts by building the text of its log line, which
    prints the port and so raises for a port that cannot be printed.  The
    first [except] clause lets an [HTTPException] through, the second turns
    any other exception into a 500. *)
Definition switch_port (path_exists : string → outcome bool) (T : Transport)
    (serial_port : string) (port : Z)
    : list event → http_outcome SwitchResponse * list event :=
  λ tr,
    let body : (outcome SwitchResponse + Z * string) * list event :=
      match Py.format_int port with
      | Raise e => (inl (Raise e), tr)
      | Return _ =>
          match path_exists serial_port with
          | Raise e => (inl (Raise e), tr)
          | Return false =>
              (inr (400, "Serial port " +:+ serial_port +:+ " does not exist"), tr)
          | Return true =>
              let '(r, tr') := switch_kvm_port T serial_port port tr in (inl r, tr')
          end
      end in
    match body with
    | (inl (Return result), tr') => (Respond result, tr')
    | (inr (status_code, detail), tr') => (HTTPException status_code detail, tr')
    | (inl (Raise e), tr') =>
        (HTTPException 500 ("Switch operation failed: " +:+ exn_str e), tr')
    end.



(** ** Further vocabulary *)

(** The calls of the [with] body, in program order, for command bytes
    [data] and a read of [size] bytes. *)
Definition exchange_calls (data : list byte) (size : Z) : list event :=
  [EResetInput; EResetOutput; EWrite data; EFlush; ESleep (1 # 2); EInWaiting;
   ERead size].

(** Some filter keyword occurs in the lowered description [d]. *)
Definition keyword_hit (d : string) : bool :=
  existsb (λ keyword, Py.contains keyword (Py.lower d)) FILTER_KEYWORDS.

(** The entry listed for an enumerated port that has a description with a
    keyword in it; no entry otherwise. *)
Definition listed_entry (port : ListPortInfo.t) : option SerialPortInfo :=
  match ListPortInfo.description port with
  | Some d =>
      if keyword_hit d
      then Some {| device := ListPortInfo.device port; description := d |}
      else None
  | None => None
  end.

(** The name of the environment variable that names a port. *)
Definition env_key (port : Z) : string :=
  "KVM_PORT_" +:+ Py.str_int port +:+ "_NAME".

(** All characters of [s] are ASCII. *)
Definition all_ascii (s : string) : Prop :=
  Forall (λ c, Py.code c < 128) (String.list_ascii_of_string s).

(** A port enumeration with a ttyUSB0 adapter, an on-board port and a
    second adapter. *)
Definition sample_ports : list ListPortInfo.t :=
  [ {| ListPortInfo.device := "/dev/ttyUSB1";
       ListPortInfo.description := Some "FTDI adapter" |};
    {| ListPortInfo.device := "/dev/ttyS0";
       ListPortInfo.description := Some "n/a" |};
    {| ListPortInfo.device := "/dev/ttyUSB0";
       ListPortInfo.description := Some "USB Serial" |} ].

(** A file system in which exactly [/dev/ttyUSB0] exists. *)
Definition sample_fs (path : string) : outcome bool :=
  Return (String.eqb path "/dev/ttyUSB0").

(** The test of the second loop of [get_default_serial_port]. *)
Definition mentions_usb (info : SerialPortInfo) : bool :=
  Py.contains "ttyUSB" (device info) || Py.contains "USB" (description info).

(** Two modems on ACM devices, and the entries listed for them. *)
Definition acm_ports : list ListPortInfo.t :=
  [ {| ListPortInfo.device := "/dev/ttyACM1";
       ListPortInfo.description := Some "usb modem" |};
    {| ListPortInfo.device := "/dev/ttyACM0";
       ListPortInfo.description := Some "serial console" |} ].

Definition acm_listed : list SerialPortInfo :=
  [ {| device := "/dev/ttyACM0"; description := "serial console" |};
    {| device := "/dev/ttyACM1"; description := "usb modem" |} ].

(** The library call logged as [ev] raises under the transport [T]. *)
Definition call_raises (T : Transport) (ev : event) : Prop :=
  match ev with
  | EOpen port cfg => ∃ e, serial_open T port cfg = Raise e
  | EResetInput => ∃ e, serial_reset_input_buffer T = Raise e
  | EResetOutput => ∃ e, serial_reset_output_buffer T = Raise e
  | EWrite data => ∃ e, serial_write T data = Raise e
  | EFlush => ∃ e, serial_flush T = Raise e
  | ESleep seconds => ∃ e, time_sleep T seconds = Raise e
  | EInWaiting => ∃ e, serial_in_waiting T = Raise e
  | ERead size => ∃ e, serial_read T size = Raise e
  | EClose => ∃ e, serial_close T = Raise e
  end.

(** Every call succeeds and the read delivers [reply], but the close
    raises [e]. *)
Definition failing_close_transport (reply : list byte) (e : exn) : Transport := {|
  serial_open := λ _ _, Return ();
  serial_reset_input_buffer := Return ();
  serial_reset_output_buffer := Return ();
  serial_write := λ _, Return ();
  serial_flush := Return ();
  time_sleep := λ _, Return ();
  serial_in_waiting := Return 0;
  serial_read := λ _, Return reply;
  serial_close := Raise e
|}.

(** * Properties *)

(** ** The model on sample inputs *)

Example switch_port_10 :
  run (switch_kvm_port (healthy_transport 4 [x4f; x4b; x0d; x0a]) "/dev/ttyUSB0" 10)
  = (Return {| success := true; port := 10; command := "XA,1$";
               response := "OK"; error := None |},
     [EOpen "/dev/ttyUSB0" SERIAL_CONFIG; EResetInput; EResetOutput;
      EWrite [x58; x41; x2c; x31; x24]; EFlush; ESleep (1 # 2); EInWaiting;
      ERead 4; EClose]).
Proof. reflexivity. Qed.

Example switch_port_0 :
  run (switch_kvm_port (healthy_transport 0 []) "/dev/ttyUSB0" 0)
  = (Return {| success := false; port := 0; command := ""; response := "";
               error := Some "Invalid port number: 0. Must be 1-10." |},
     []).
Proof. reflexivity. Qed.

Example switch_write_timeout :
  run (switch_kvm_port
         (failing_write_transport (mk_exn SerialException "Write timeout"))
         "/dev/ttyUSB0" 3)
  = (Return {| success := false; port := 3; command := "X3,1$"; response := "";
               error := Some "Serial communication failed: Write timeout" |},
     [EOpen "/dev/ttyUSB0" SERIAL_CONFIG; EResetInput; EResetOutput;
      EWrite [x58; x33; x2c; x31; x24]; EClose]).
Proof. reflexivity. Qed.

Example decode_drops_high_bytes :
  Py.strip (Py.decode_ascii_ignore [x09; xff; x4f; x80; x4b; x20; x1f]) = "OK".
Proof. reflexivity. Qed.

Example discovery_filters_and_sorts :
  get_serial_ports
    (Return [ {| ListPortInfo.device := "/dev/ttyUSB1";
                 ListPortInfo.description := Some "FTDI adapter" |};
              {| ListPortInfo.device := "/dev/ttyS0";
                 ListPortInfo.description := Some "n/a" |};
              {| ListPortInfo.device := "/dev/ttyACM0";
                 ListPortInfo.description := Some "USB Serial" |} ])
  = Return [ {| device := "/dev/ttyACM0"; description := "USB Serial" |};
             {| device := "/dev/ttyUSB1"; description := "FTDI adapter" |} ].
Proof. reflexivity. Qed.

Example discovery_without_description :
  get_serial_ports
    (Return [ {| ListPortInfo.device := "/dev/ttyUSB1";
                 ListPortInfo.description := Some "FTDI adapter" |};
              {| ListPortInfo.device := "/dev/ttyS0";
                 ListPortInfo.description := None |} ])
  = Return [].
Proof. reflexivity. Qed.

Example port_names_sample :
  get_port_names_from_env {[ "KVM_PORT_3_NAME" := "db"; "KVM_PORT_10_NAME" := "" ]}
    !! 3 = Some "db"
  ∧ get_port_names_from_env {[ "KVM_PORT_3_NAME" := "db"; "KVM_PORT_10_NAME" := "" ]}
    !! 10 = Some "Server 10".
Proof. split; reflexivity. Qed.

(** ** The validator and the command table *)

Lemma validate_port_number_true (port : Z) :
  validate_port_number port = true ↔ 1 ≤ port ≤ 10.
Proof. unfold validate_port_number. rewrite andb_true_iff, !Z.leb_le. tauto. Qed.

Lemma validate_port_number_false (port : Z) :
  validate_port_number port = false ↔ ¬ (1 ≤ port ≤ 10).
Proof.
  rewrite <- validate_port_number_true.
  destruct (validate_port_number port); intuition congruence.
Qed.

(** Splits [1 ≤ p ≤ 10] into its ten cases. *)
Ltac port_cases p H :=
  let E := fresh "E" in
  assert (E : p = 1 ∨ p = 2 ∨ p = 3 ∨ p = 4 ∨ p = 5
              ∨ p = 6 ∨ p = 7 ∨ p = 8 ∨ p = 9 ∨ p = 10) by lia;
  clear H; repeat (destruct E as [E | E]); subst p.

Lemma PORT_COMMANDS_lookup (port : Z) :
  PORT_COMMANDS !! port =
    if validate_port_number port then Some (protocol_command port) else None.
Proof.
  destruct (validate_port_number port) eqn:V.
  - apply validate_port_number_true in V. port_cases port V; reflexivity.
  - apply validate_port_number_false in V.
    apply not_elem_of_list_to_map_1. cbn [fmap list_fmap fst].
    rewrite !elem_of_cons, elem_of_nil. lia.
Qed.

(** Every table entry is non-empty ASCII, so encoding it cannot raise. *)
Lemma protocol_command_encode (port : Z) :
  1 ≤ port ≤ 10 →
  protocol_command port ≠ "" ∧
  Py.encode_ascii (protocol_command port)
    = Return (String.list_byte_of_string (protocol_command port)).
Proof. intros H. port_cases port H; (split; [discriminate | reflexivity]). Qed.

(** C8. [validate_port_number] is a total function of the port alone: it
    answers [true] exactly for the integers from 1 to 10 and [false] for
    every other integer. *)
Theorem validate_port_number_spec (port : Z) :
  (validate_port_number port = true ↔ 1 ≤ port ≤ 10)
  ∧ (validate_port_number port = false ↔ (port < 1 ∨ 10 < port)).
Proof.
  split; [apply validate_port_number_true|].
  rewrite validate_port_number_false. lia.
Qed.

(** ** Printing integers *)

Lemma int_str_bound_large : 1000 < Py.int_str_bound.
Proof. by vm_compute. Qed.

Lemma format_int_small (n : Z) :
  Z.abs n < Py.int_str_bound → Py.format_int n = Return (Py.str_int n).
Proof.
  intros H. unfold Py.format_int.
  by rewrite (proj2 (Z.ltb_lt _ _) H).
Qed.

Lemma format_int_large (n : Z) :
  Py.int_str_bound ≤ Z.abs n →
  Py.format_int n
  = Raise (mk_exn Exception
             "Exceeds the limit (4300 digits) for integer string conversion; use sys.set_int_max_str_digits() to increase the limit").
Proof.
  intros H. unfold Py.format_int.
  by rewrite (proj2 (Z.ltb_ge _ _) H).
Qed.

Lemma valid_port_printable (port : Z) :
  1 ≤ port ≤ 10 → Z.abs port < Py.int_str_bound.
Proof. pose proof int_str_bound_large. lia. Qed.

(** ** Rejected ports *)

Lemma switch_kvm_port_rejects T serial_port port_num tr :
  validate_port_number port_num = false →
  Z.abs port_num < Py.int_str_bound →
  switch_kvm_port T serial_port port_num tr =
    (Return (failure port_num ""
               ("Invalid port number: " +:+ Py.str_int port_num
                +:+ ". Must be 1-10.")),
     tr).
Proof.
  intros V Hsmall. unfold switch_kvm_port. rewrite V. cbn [negb].
  unfold io_bind, lift. by rewrite format_int_small.
Qed.

(** A rejected port makes no call, whether the error text can be built or
    not. *)
Lemma switch_kvm_port_rejects_log T serial_port port_num tr r tr' :
  validate_port_number port_num = false →
  switch_kvm_port T serial_port port_num tr = (r, tr') → tr' = tr.
Proof.
  intros V. unfold switch_kvm_port. rewrite V. cbn [negb].
  unfold io_bind, lift, io_ret.
  destruct (Py.format_int port_num); by intros [= _ <-].
Qed.

(** What a rejected port returns, when it returns. *)
Lemma switch_kvm_port_rejects_return T serial_port port_num tr resp tr' :
  validate_port_number port_num = false →
  switch_kvm_port T serial_port port_num tr = (Return resp, tr') →
  resp = failure port_num ""
           ("Invalid port number: " +:+ Py.str_int port_num +:+ ". Must be 1-10.").
Proof.
  intros V. unfold switch_kvm_port. rewrite V. cbn [negb].
  unfold io_bind, lift, io_ret, Py.format_int.
  destruct (Z.abs port_num <? Py.int_str_bound); [|done].
  by intros [= <- _].
Qed.

(** C1, as the code has it.  For every transport, device string and port
    outside 1..10, [switch_kvm_port] makes no call on the serial device:
    the call log is left as it was.  When the port has at most 4300
    decimal digits, the call returns the failure response with empty
    command and response and the "Invalid port number" error. *)
Theorem switch_kvm_port_invalid_port
    (T : Transport) (serial_port : string) (port_num : Z) (tr : list event) :
  ¬ (1 ≤ port_num ≤ 10) →
  (Z.abs port_num < Py.int_str_bound →
     switch_kvm_port T serial_port port_num tr =
       (Return {| success := false; port := port_num; command := "";
                  response := "";
                  error := Some ("Invalid port number: " +:+ Py.str_int port_num
                                 +:+ ". Must be 1-10.") |},
        tr))
  ∧ (∀ r tr', switch_kvm_port T serial_port port_num tr = (r, tr') → tr' = tr).
Proof.
  intros H. apply validate_port_number_false in H. split.
  - intros Hsmall. by apply switch_kvm_port_rejects.
  - intros r tr'. by apply switch_kvm_port_rejects_log.
Qed.

Lemma switch_kvm_port_invalid_port_witness :
  ¬ (1 ≤ 11 ≤ 10)
  ∧ Z.abs 11 < Py.int_str_bound
  ∧ run (switch_kvm_port (healthy_transport 0 []) "/dev/ttyUSB0" 11) =
      (Return {| success := false; port := 11; command := ""; response := "";
                 error := Some "Invalid port number: 11. Must be 1-10." |},
       [])
  ∧ ∀ r tr', switch_kvm_port (healthy_transport 0 []) "/dev/ttyUSB0" 11 [] = (r, tr')
             → tr' = [].
Proof.
  assert (Hout : ¬ (1 ≤ 11 ≤ 10)) by lia.
  assert (Hsmall : Z.abs 11 < Py.int_str_bound) by (by vm_compute).
  split; [exact Hout|]. split; [exact Hsmall|].
  destruct (switch_kvm_port_invalid_port
              (healthy_transport 0 []) "/dev/ttyUSB0" 11 [] Hout)
    as [Hreturns Hlog].
  split; [exact (Hreturns Hsmall) | exact Hlog].
Defined.

(** C1, as stated, fails: for the port 10^4300, which has 4301 digits, the
    text of the error cannot be built and the call raises a ValueError
    instead of returning a response (still without any call on the
    device). *)
Lemma switch_kvm_port_invalid_port_counterexample :
  ¬ (1 ≤ 10 ^ 4300 ≤ 10)
  ∧ switch_kvm_port (healthy_transport 0 []) "/dev/ttyUSB0" (10 ^ 4300) [] =
      (Raise (mk_exn Exception
                "Exceeds the limit (4300 digits) for integer string conversion; use sys.set_int_max_str_digits() to increase the limit"),
       [])
  ∧ ¬ (∀ (T : Transport) (serial_port : string) (port_num : Z) (tr : list event),
         ¬ (1 ≤ port_num ≤ 10) →
         ∃ resp, switch_kvm_port T serial_port port_num tr = (Return resp, tr)
                 ∧ success resp = false ∧ command resp = ""
                 ∧ response resp = "").
Proof.
  assert (Hout : ¬ (1 ≤ 10 ^ 4300 ≤ 10)).
  { intros [_ H]. apply H. by vm_compute. }
  assert (Hrun : switch_kvm_port (healthy_transport 0 []) "/dev/ttyUSB0"
                   (10 ^ 4300) [] =
                 (Raise (mk_exn Exception
                    "Exceeds the limit (4300 digits) for integer string conversion; use sys.set_int_max_str_digits() to increase the limit"),
                  [])).
  { vm_compute. reflexivity. }
  split; [exact Hout|]. split; [exact Hrun|].
  intros Hclaim.
  destruct (Hclaim (healthy_transport 0 []) "/dev/ttyUSB0" (10 ^ 4300) [] Hout)
    as (resp & Hret & _).
  rewrite Hrun in Hret. discriminate Hret.
Qed.

(** ** Running the transaction *)

(** Case analysis on the answer of the next library call in the goal. *)
Ltac transport_step T :=
  match goal with
  | |- context [serial_reset_input_buffer T] =>
      destruct (serial_reset_input_buffer T) as [[]|?] eqn:?
  | |- context [serial_reset_output_buffer T] =>
      destruct (serial_reset_output_buffer T) as [[]|?] eqn:?
  | |- context [serial_write T ?d] =>
      destruct (serial_write T d) as [[]|?] eqn:?
  | |- context [serial_flush T] =>
      destruct (serial_flush T) as [[]|?] eqn:?
  | |- context [time_sleep T ?d] =>
      destruct (time_sleep T d) as [[]|?] eqn:?
  | |- context [serial_in_waiting T] =>
      destruct (serial_in_waiting T) as [?|?] eqn:?
  | |- context [serial_read T ?n] =>
      destruct (serial_read T n) as [?|?] eqn:?
  end.

Lemma serial_exchange_path T port_num cmd data tr :
  Py.encode_ascii cmd = Return data →
  ∃ r evs,
    serial_exchange T port_num cmd tr = (r, tr ++ evs)
    ∧ exchange_path T port_num cmd data r evs.
Proof.
  intros Henc.
  unfold serial_exchange, io_bind, io_ret, lift, call. rewrite Henc.
  repeat transport_step T;
    (do 2 eexists; split;
     [rewrite <- ?app_assoc; reflexivity | econstructor; eassumption]).
Qed.

Lemma with_serial_path T serial_port port_num cmd data tr :
  Py.encode_ascii cmd = Return data →
  ∃ r evs,
    with_serial T serial_port SERIAL_CONFIG (serial_exchange T port_num cmd) tr
      = (r, tr ++ evs)
    ∧ transaction_path T serial_port port_num cmd data r evs.
Proof.
  intros Henc. unfold with_serial, call.
  destruct (serial_open T serial_port SERIAL_CONFIG) as [[]|e] eqn:Hopen.
  - destruct (serial_exchange_path T port_num cmd data
                (tr ++ [EOpen serial_port SERIAL_CONFIG]) Henc)
      as (r & evs & -> & Hpath).
    destruct (serial_close T) as [[]|e] eqn:Hclose.
    + exists r, (EOpen serial_port SERIAL_CONFIG :: evs ++ [EClose]). split.
      * rewrite <- !app_assoc. reflexivity.
      * by apply close_returns.
    + exists (Raise e), (EOpen serial_port SERIAL_CONFIG :: evs ++ [EClose]). split.
      * rewrite <- !app_assoc. reflexivity.
      * by eapply close_raises.
  - exists (Raise e), [EOpen serial_port SERIAL_CONFIG]. split; [done|].
    by apply open_raises.
Qed.

(** A failure to open the device is raised as it is, and nothing is closed. *)
Lemma with_serial_open_raises {A} T serial_port cfg (body : io A) tr e :
  serial_open T serial_port cfg = Raise e →
  with_serial T serial_port cfg body tr = (Raise e, tr ++ [EOpen serial_port cfg]).
Proof. intros Hopen. unfold with_serial, call. by rewrite Hopen. Qed.

(** The three [except] clauses leave no exception unhandled. *)
Lemma handlers_settle T serial_port port_num cmd tr r tr' :
  with_serial T serial_port SERIAL_CONFIG (serial_exchange T port_num cmd) tr
    = (r, tr') →
  try_except
    (with_serial T serial_port SERIAL_CONFIG (serial_exchange T port_num cmd))
    [ (SerialException, λ e,
         io_ret (failure port_num cmd
                   ("Serial communication failed: " +:+ exn_str e)));
      (PermissionError, λ e,
         io_ret (failure port_num cmd
                   ("Access denied to serial port " +:+ serial_port +:+ ": "
                    +:+ exn_str e)));
      (Exception, λ e,
         io_ret (failure port_num cmd ("Unexpected error: " +:+ exn_str e))) ]
    tr
  = (Return (settle serial_port port_num cmd r), tr').
Proof.
  intros Hrun. unfold try_except. rewrite Hrun.
  destruct r as [resp|[cls msg]]; [done|].
  unfold settle, fault_message. by destruct cls.
Qed.

(** For a valid port the call is the table lookup, one transaction, and
    the handlers. *)
Lemma switch_kvm_port_valid T serial_port port_num tr :
  1 ≤ port_num ≤ 10 →
  ∃ r evs,
    transaction_path T serial_port port_num (protocol_command port_num)
      (String.list_byte_of_string (protocol_command port_num)) r evs
    ∧ switch_kvm_port T serial_port port_num tr
      = (Return (settle serial_port port_num (protocol_command port_num) r),
         tr ++ evs).
Proof.
  intros V. destruct (protocol_command_encode port_num V) as [_ Henc].
  destruct (with_serial_path T serial_port port_num _ _ tr Henc)
    as (r & evs & Hrun & Hpath).
  exists r, evs. split; [done|].
  unfold switch_kvm_port.
  pose proof (PORT_COMMANDS_lookup port_num) as L.
  apply validate_port_number_true in V. rewrite V in L |- *. cbn [negb].
  unfold io_bind at 1, lift at 1, Py.dict_getitem. rewrite L.
  by apply handlers_settle.
Qed.

(** ** Reading the paths *)

Ltac split_elem H :=
  repeat (apply elem_of_cons in H as [H|H]);
  try (apply elem_of_nil in H; destruct H);
  try discriminate H.

(** A transaction that returns went through every call, and its response
    is the success record built from the bytes read. *)
Lemma transaction_path_return T serial_port port_num cmd data resp evs :
  transaction_path T serial_port port_num cmd data (Return resp) evs →
  ∃ waiting raw,
    serial_in_waiting T = Return waiting
    ∧ serial_read T (Py.or_int waiting 1024) = Return raw
    ∧ resp = {| success := true; port := port_num; command := cmd;
                response := Py.strip (Py.decode_ascii_ignore raw);
                error := None |}.
Proof.
  intros Hpath. inversion Hpath as [| ? ? _ Hex _ |]; subst.
  inversion Hex; subst. eauto.
Qed.

(** Only the encoded command is ever written. *)
Lemma transaction_path_write T serial_port port_num cmd data r evs written :
  transaction_path T serial_port port_num cmd data r evs →
  EWrite written ∈ evs → written = data.
Proof.
  intros Hpath Hin.
  inversion Hpath as [| ? ? _ Hex _ | ? ? ? _ Hex _]; subst;
    try (split_elem Hin; fail);
    inversion Hex; subst; cbn [app] in Hin; split_elem Hin; congruence.
Qed.

(** A transaction that reaches the read made exactly these calls, each
    before the read having returned. *)
Lemma transaction_path_read T serial_port port_num cmd data r evs size :
  transaction_path T serial_port port_num cmd data r evs →
  ERead size ∈ evs →
  ∃ waiting,
    serial_in_waiting T = Return waiting
    ∧ size = Py.or_int waiting 1024
    ∧ serial_write T data = Return ()
    ∧ serial_flush T = Return ()
    ∧ time_sleep T (1 # 2) = Return ()
    ∧ evs = [EOpen serial_port SERIAL_CONFIG; EResetInput; EResetOutput;
             EWrite data; EFlush; ESleep (1 # 2); EInWaiting; ERead size;
             EClose].
Proof.
  intros Hpath Hin.
  inversion Hpath as [| ? ? _ Hex _ | ? ? ? _ Hex _]; subst;
    try (split_elem Hin; fail);
    inversion Hex; subst; cbn [app] in Hin; split_elem Hin;
    injection Hin as ->; eexists; repeat split; eauto.
Qed.

(** When every call returns, the transaction returns the success record. *)
Lemma transaction_path_succeeds T serial_port port_num cmd data raw r evs :
  transport_succeeds T serial_port data raw →
  transaction_path T serial_port port_num cmd data r evs →
  r = Return {| success := true; port := port_num; command := cmd;
                response := Py.strip (Py.decode_ascii_ignore raw);
                error := None |}.
Proof.
  intros (Ho & Hi & Hou & Hw & Hf & Hs & (waiting & Hn & Hr) & Hc) Hpath.
  inversion Hpath as [| ? ? ? Hex ? | ? ? ? ? Hex ?]; subst; try congruence.
  inversion Hex; subst; congruence.
Qed.

(** The log of one call, split by cases on the port. *)
Lemma run_switch_kvm_port_cases T serial_port port_num r tr :
  run (switch_kvm_port T serial_port port_num) = (r, tr) →
  (validate_port_number port_num = false ∧ tr = [])
  ∨ (1 ≤ port_num ≤ 10
     ∧ ∃ r',
         transaction_path T serial_port port_num (protocol_command port_num)
           (String.list_byte_of_string (protocol_command port_num)) r' tr
         ∧ r = Return (settle serial_port port_num (protocol_command port_num) r')).
Proof.
  unfold run. intros Hrun.
  destruct (validate_port_number port_num) eqn:V.
  - right. apply validate_port_number_true in V. split; [done|].
    destruct (switch_kvm_port_valid T serial_port port_num [] V)
      as (r' & evs & Hpath & Hrun').
    rewrite Hrun' in Hrun. cbn [app] in Hrun. injection Hrun as <- <-.
    by exists r'.
  - left. split; [done|]. by eapply switch_kvm_port_rejects_log.
Qed.

(** Once the open and the two resets have returned, the command bytes are
    written, right after them and only once. *)
Lemma transaction_path_write_reached T serial_port port_num cmd data r evs :
  transaction_path T serial_port port_num cmd data r evs →
  serial_open T serial_port SERIAL_CONFIG = Return () →
  serial_reset_input_buffer T = Return () →
  serial_reset_output_buffer T = Return () →
  ∃ rest,
    evs = [EOpen serial_port SERIAL_CONFIG; EResetInput; EResetOutput;
           EWrite data] ++ rest
    ∧ ∀ written, EWrite written ∉ rest.
Proof.
  intros Hpath Hopen Hin Hout.
  inversion Hpath as [| ? ? _ Hex _ | ? ? ? _ Hex _]; subst; try congruence;
    inversion Hex; subst; try congruence;
    (eexists; split; [reflexivity|]; intros written Hw;
     cbn [app] in Hw; split_elem Hw).
Qed.

(** A transaction whose read returned and whose close returned has
    returned the success record for the bytes read. *)
Lemma transaction_path_read_returns T serial_port port_num cmd data r evs size raw :
  transaction_path T serial_port port_num cmd data r evs →
  ERead size ∈ evs →
  serial_read T size = Return raw →
  serial_close T = Return () →
  r = Return {| success := true; port := port_num; command := cmd;
                response := Py.strip (Py.decode_ascii_ignore raw);
                error := None |}.
Proof.
  intros Hpath Hin Hread Hclose.
  inversion Hpath as [| ? ? ? Hex ? | ? ? ? ? Hex ?]; subst;
    try (split_elem Hin; fail); try congruence.
  inversion Hex; subst; cbn [app] in Hin; split_elem Hin;
    injection Hin as ->; congruence.
Qed.

(** When every call before the read returns, the read is made, with the
    size the waiting count gives. *)
Lemma transaction_path_read_reached T serial_port port_num cmd data r evs waiting :
  transaction_path T serial_port port_num cmd data r evs →
  serial_open T serial_port SERIAL_CONFIG = Return () →
  serial_reset_input_buffer T = Return () →
  serial_reset_output_buffer T = Return () →
  serial_write T data = Return () →
  serial_flush T = Return () →
  time_sleep T (1 # 2) = Return () →
  serial_in_waiting T = Return waiting →
  ERead (Py.or_int waiting 1024) ∈ evs.
Proof.
  intros Hpath Hopen Hin Hout Hwrite Hflush Hsleep Hwaiting.
  inversion Hpath as [| ? ? _ Hex _ | ? ? ? _ Hex _]; subst; try congruence;
    inversion Hex; subst; try congruence;
    (assert (waiting0 = waiting) as -> by congruence);
    cbn [app]; do 7 apply list_elem_of_further; apply list_elem_of_here.
Qed.


(** ** Decoding and trimming *)

Lemma decode_ascii_ignore_filter (bs : list byte) :
  String.list_ascii_of_string (Py.decode_ascii_ignore bs)
  = map ascii_of_byte (List.filter Py.is_ascii_byte bs).
Proof.
  induction bs as [|b bs IH]; [done|].
  cbn [Py.decode_ascii_ignore List.filter].
  destruct (Py.is_ascii_byte b); [|done].
  cbn [String.list_ascii_of_string map fmap list_fmap]. by rewrite IH.
Qed.

Lemma lstrip_spec (s : string) :
  ∃ lead, s = lead +:+ Py.lstrip s
          ∧ all_space lead
          ∧ ∀ c, first_char (Py.lstrip s) = Some c → Py.isspace c = false.
Proof.
  induction s as [|c s (lead & Heq & Hsp & Hfirst)].
  - exists "". repeat split; [constructor | discriminate].
  - cbn [Py.lstrip]. destruct (Py.isspace c) eqn:Hc.
    + exists (String c lead). repeat split; [| by constructor | done].
      change (String c s = String c (lead +:+ Py.lstrip s)). by rewrite <- Heq.
    + exists "". repeat split; [constructor|].
      intros c' [= <-]. done.
Qed.

Lemma rstrip_spec (s : string) :
  ∃ trail, s = Py.rstrip s +:+ trail
           ∧ all_space trail
           ∧ ∀ c, last_char (Py.rstrip s) = Some c → Py.isspace c = false.
Proof.
  induction s as [|c s (trail & Heq & Hsp & Hlast)].
  - exists "". repeat split; [constructor | discriminate].
  - cbn [Py.rstrip]. destruct (Py.rstrip s) as [|d r] eqn:Hr.
    + change (s = trail) in Heq. subst trail.
      destruct (Py.isspace c) eqn:Hc.
      * exists (String c s). repeat split; [by constructor | discriminate].
      * exists s. repeat split; [done|]. intros c' [= <-]. done.
    + exists trail. repeat split; [| done | done].
      change (String c s = String c (String d r +:+ trail)). by rewrite <- Heq.
Qed.

Lemma rstrip_first_char (s : string) (c : ascii) :
  first_char (Py.rstrip s) = Some c → first_char s = Some c.
Proof.
  destruct s as [|a s]; [done|]. cbn [Py.rstrip].
  destruct (Py.rstrip s); [destruct (Py.isspace a)|]; done.
Qed.

(** [strip] removes a run of white space at each end and leaves a text
    with no white space at either end. *)
Lemma strip_spec (s : string) :
  ∃ lead trail,
    s = lead +:+ Py.strip s +:+ trail
    ∧ all_space lead ∧ all_space trail ∧ trimmed (Py.strip s).
Proof.
  destruct (lstrip_spec s) as (lead & Hl & Hlsp & Hfirst).
  destruct (rstrip_spec (Py.lstrip s)) as (trail & Hr & Hrsp & Hlast).
  exists lead, trail. unfold Py.strip, trimmed. repeat split; try done.
  - by rewrite <- Hr.
  - intros c Hc. apply Hfirst. by apply rstrip_first_char.
Qed.

(** ** The command issued *)

(** C2. The command table holds exactly ten entries, one for each port
    from 1 to 10 and none for any other integer; the entry of a port N up
    to 9 is X, the digit N, then [,1$], and the entry of port 10 is
    [XA,1$].  For a valid port, whatever the log of earlier calls,
    [switch_kvm_port] returns a response whose command is that entry.  As
    soon as the open and the two buffer resets return, the ASCII bytes of
    that entry are written to the device, right after the resets and once;
    nothing else is ever written.  The table is a constant: the command a
    port gets is the same for every transport, device and earlier log, so
    no call changes what a later call issues. *)
Theorem command_table_exact
    (T : Transport) (serial_port : string) (port_num : Z)
    (tr tr' : list event) (r : outcome SwitchResponse) :
  1 ≤ port_num ≤ 10 →
  switch_kvm_port T serial_port port_num tr = (r, tr') →
  size PORT_COMMANDS = 10%nat
  ∧ (∀ p, is_Some (PORT_COMMANDS !! p) ↔ 1 ≤ p ≤ 10)
  ∧ PORT_COMMANDS !! port_num
    = Some (if port_num =? 10 then "XA,1$"
            else "X" +:+ Py.str_int port_num +:+ ",1$")
  ∧ ∃ resp evs,
      r = Return resp ∧ tr' = tr ++ evs
      ∧ PORT_COMMANDS !! port_num = Some (command resp)
      ∧ (∀ written, EWrite written ∈ evs →
                    Py.encode_ascii (command resp) = Return written)
      ∧ (serial_open T serial_port SERIAL_CONFIG = Return () →
         serial_reset_input_buffer T = Return () →
         serial_reset_output_buffer T = Return () →
         ∃ written rest,
           Py.encode_ascii (command resp) = Return written
           ∧ evs = [EOpen serial_port SERIAL_CONFIG; EResetInput; EResetOutput;
                    EWrite written] ++ rest
           ∧ ∀ again, EWrite again ∉ rest)
      ∧ (∀ T' serial_port' tr0 tr1 resp',
           switch_kvm_port T' serial_port' port_num tr0 = (Return resp', tr1) →
           command resp' = command resp).
Proof.
  intros V Hcall. split; [reflexivity|]. split.
  { intros p. rewrite PORT_COMMANDS_lookup, <- validate_port_number_true.
    destruct (validate_port_number p); [by split; eauto|].
    split; [by intros [? ?] | done]. }
  assert (L : PORT_COMMANDS !! port_num = Some (protocol_command port_num)).
  { rewrite PORT_COMMANDS_lookup.
    apply validate_port_number_true in V. by rewrite V. }
  split; [exact L|].
  assert (Hcmd : ∀ T0 dev0 tr0 resp0 tr1,
            switch_kvm_port T0 dev0 port_num tr0 = (Return resp0, tr1) →
            command resp0 = protocol_command port_num).
  { intros T0 dev0 tr0 resp0 tr1 Hcall0.
    destruct (switch_kvm_port_valid T0 dev0 port_num tr0 V)
      as (r0 & evs0 & Hpath0 & Hrun0).
    rewrite Hrun0 in Hcall0. injection Hcall0 as <- _.
    destruct r0 as [resp|e]; [|done].
    by apply transaction_path_return in Hpath0 as (? & ? & _ & _ & ->). }
  destruct (switch_kvm_port_valid T serial_port port_num tr V)
    as (r0 & evs & Hpath & Hrun).
  destruct (protocol_command_encode port_num V) as [_ Henc].
  rewrite Hrun in Hcall. injection Hcall as <- <-.
  eexists _, evs. split; [reflexivity|]. split; [reflexivity|].
  rewrite (Hcmd _ _ _ _ _ Hrun). split; [exact L|]. split; [|split].
  - intros written Hin.
    by rewrite (transaction_path_write _ _ _ _ _ _ _ _ Hpath Hin).
  - intros Hopen Hin Hout.
    destruct (transaction_path_write_reached _ _ _ _ _ _ _ Hpath Hopen Hin Hout)
      as (rest & -> & Honce).
    by eexists _, rest.
  - intros T' dev' tr0 tr1 resp' Hcall'. by eapply Hcmd.
Qed.

Lemma command_table_exact_witness :
  1 ≤ 10 ≤ 10
  ∧ switch_kvm_port (healthy_transport 4 [x4f; x4b; x0d; x0a]) "/dev/ttyUSB0" 10 []
    = (Return {| success := true; port := 10; command := "XA,1$";
                 response := "OK"; error := None |},
       [EOpen "/dev/ttyUSB0" SERIAL_CONFIG; EResetInput; EResetOutput;
        EWrite [x58; x41; x2c; x31; x24]; EFlush; ESleep (1 # 2); EInWaiting;
        ERead 4; EClose])
  ∧ size PORT_COMMANDS = 10%nat
  ∧ (∀ p, is_Some (PORT_COMMANDS !! p) ↔ 1 ≤ p ≤ 10)
  ∧ PORT_COMMANDS !! 10
    = Some (if 10 =? 10 then "XA,1$" else "X" +:+ Py.str_int 10 +:+ ",1$")
  ∧ ∃ resp evs,
      Return {| success := true; port := 10; command := "XA,1$";
                response := "OK"; error := None |} = Return resp
      ∧ [EOpen "/dev/ttyUSB0" SERIAL_CONFIG; EResetInput; EResetOutput;
         EWrite [x58; x41; x2c; x31; x24]; EFlush; ESleep (1 # 2); EInWaiting;
         ERead 4; EClose] = [] ++ evs
      ∧ PORT_COMMANDS !! 10 = Some (command resp)
      ∧ (∀ written, EWrite written ∈ evs →
                    Py.encode_ascii (command resp) = Return written)
      ∧ (serial_open (healthy_transport 4 [x4f; x4b; x0d; x0a]) "/dev/ttyUSB0"
           SERIAL_CONFIG = Return () →
         serial_reset_input_buffer (healthy_transport 4 [x4f; x4b; x0d; x0a])
           = Return () →
         serial_reset_output_buffer (healthy_transport 4 [x4f; x4b; x0d; x0a])
           = Return () →
         ∃ written rest,
           Py.encode_ascii (command resp) = Return written
           ∧ evs = [EOpen "/dev/ttyUSB0" SERIAL_CONFIG; EResetInput; EResetOutput;
                    EWrite written] ++ rest
           ∧ ∀ again, EWrite again ∉ rest)
      ∧ (∀ T' serial_port' tr0 tr1 resp',
           switch_kvm_port T' serial_port' 10 tr0 = (Return resp', tr1) →
           command resp' = command resp).
Proof.
  split; [lia|]. split; [reflexivity|].
  apply (command_table_exact (healthy_transport 4 [x4f; x4b; x0d; x0a])
           "/dev/ttyUSB0" 10 [] _ _ ltac:(lia) eq_refl).
Defined.

(** ** Transport failures *)




(** ** Totality and the result invariant *)

Lemma fault_message_nonempty (serial_port : string) (e : exn) :
  fault_message serial_port e ≠ "".
Proof. unfold fault_message. by destruct (exn_cls e). Qed.

(** C4, as the code has it.  For every transport, device string and
    integer port of at most 4300 decimal digits, [switch_kvm_port] returns
    exactly one response and raises nothing, and the response carries the
    requested port.  A response with success=true has no error and a
    non-empty command that is the table entry of the port.  A response
    with success=false carries a non-empty error text, and its command is
    empty exactly when the port failed validation. *)
Theorem switch_kvm_port_total
    (T : Transport) (serial_port : string) (port_num : Z) (tr : list event) :
  Z.abs port_num < Py.int_str_bound →
  ∃ resp evs,
    switch_kvm_port T serial_port port_num tr = (Return resp, tr ++ evs)
    ∧ port resp = port_num
    ∧ (success resp = true →
         error resp = None ∧ command resp ≠ ""
         ∧ PORT_COMMANDS !! port_num = Some (command resp))
    ∧ (success resp = false →
         (∃ msg, error resp = Some msg ∧ msg ≠ "")
         ∧ (command resp = "" ↔ validate_port_number port_num = false)).
Proof.
  intros Hsmall.
  destruct (validate_port_number port_num) eqn:V.
  - apply validate_port_number_true in V.
    destruct (switch_kvm_port_valid T serial_port port_num tr V)
      as (r & evs & Hpath & Hrun).
    destruct (protocol_command_encode port_num V) as [Hne _].
    assert (L : PORT_COMMANDS !! port_num = Some (protocol_command port_num)).
    { rewrite PORT_COMMANDS_lookup.
      apply validate_port_number_true in V. by rewrite V. }
    eexists _, evs. split; [exact Hrun|].
    destruct r as [resp|e].
    + apply transaction_path_return in Hpath as (? & ? & _ & _ & ->).
      cbn [settle port success error command]. repeat split; try done.
    + cbn [settle failure port success error command].
      repeat split; try done.
      exists (fault_message serial_port e).
      split; [done | apply fault_message_nonempty].
  - exists (failure port_num ""
              ("Invalid port number: " +:+ Py.str_int port_num +:+ ". Must be 1-10.")), [].
    rewrite app_nil_r.
    split; [by apply switch_kvm_port_rejects|].
    cbn [failure port success error command]. repeat split; try done.
    eexists. split; [reflexivity | done].
Qed.

Lemma switch_kvm_port_total_witness :
  Z.abs 11 < Py.int_str_bound
  ∧ ∃ resp evs,
      switch_kvm_port (healthy_transport 0 []) "/dev/ttyUSB0" 11 []
        = (Return resp, [] ++ evs)
      ∧ port resp = 11
      ∧ (success resp = true →
           error resp = None ∧ command resp ≠ ""
           ∧ PORT_COMMANDS !! 11 = Some (command resp))
      ∧ (success resp = false →
           (∃ msg, error resp = Some msg ∧ msg ≠ "")
           ∧ (command resp = "" ↔ validate_port_number 11 = false)).
Proof.
  assert (Hsmall : Z.abs 11 < Py.int_str_bound) by (by vm_compute).
  split; [exact Hsmall|].
  apply (switch_kvm_port_total (healthy_transport 0 []) "/dev/ttyUSB0" 11 [] Hsmall).
Defined.

(** C4, as stated, fails: for the port 10^4300 the text of the
    invalid-port error cannot be built, and the ValueError leaves
    [switch_kvm_port], for that text is built before the [try]. *)
Lemma switch_kvm_port_total_counterexample :
  switch_kvm_port (healthy_transport 0 []) "/dev/ttyUSB0" (10 ^ 4300) [] =
    (Raise (mk_exn Exception
              "Exceeds the limit (4300 digits) for integer string conversion; use sys.set_int_max_str_digits() to increase the limit"),
     [])
  ∧ ¬ (∀ (T : Transport) (serial_port : string) (port_num : Z) (tr : list event),
         ∃ resp evs,
           switch_kvm_port T serial_port port_num tr = (Return resp, tr ++ evs)).
Proof.
  assert (Hrun : switch_kvm_port (healthy_transport 0 []) "/dev/ttyUSB0"
                   (10 ^ 4300) [] =
                 (Raise (mk_exn Exception
                    "Exceeds the limit (4300 digits) for integer string conversion; use sys.set_int_max_str_digits() to increase the limit"),
                  [])).
  { vm_compute. reflexivity. }
  split; [exact Hrun|].
  intros Hclaim.
  destruct (Hclaim (healthy_transport 0 []) "/dev/ttyUSB0" (10 ^ 4300) [])
    as (resp & evs & Hret).
  rewrite Hrun in Hret. discriminate Hret.
Qed.

(** ** The decoded response *)

(** C5, as the code has it.  For a valid port, when every call before
    the read returns, the read is made.  When the read of the transaction
    returns [raw] and the close that follows returns, the response has
    success=true, no error, and as text the bytes of [raw] below 128, in
    order, each as the character of the same code (the others are dropped
    and nothing raises), with the white space at both ends removed.  The
    bytes of "  OK\r\n" give "OK". *)
Theorem switch_kvm_port_decodes_response
    (T : Transport) (serial_port : string) (port_num : Z)
    (r : outcome SwitchResponse) (tr : list event) :
  1 ≤ port_num ≤ 10 →
  run (switch_kvm_port T serial_port port_num) = (r, tr) →
  (∀ waiting,
     serial_open T serial_port SERIAL_CONFIG = Return () →
     serial_reset_input_buffer T = Return () →
     serial_reset_output_buffer T = Return () →
     serial_write T (String.list_byte_of_string (protocol_command port_num))
       = Return () →
     serial_flush T = Return () →
     time_sleep T (1 # 2) = Return () →
     serial_in_waiting T = Return waiting →
     ERead (Py.or_int waiting 1024) ∈ tr)
  ∧ (∀ size raw,
       ERead size ∈ tr →
       serial_read T size = Return raw →
       serial_close T = Return () →
       r = Return {| success := true; port := port_num;
                     command := protocol_command port_num;
                     response := Py.strip (Py.decode_ascii_ignore raw);
                     error := None |}
       ∧ String.list_ascii_of_string (Py.decode_ascii_ignore raw)
         = map ascii_of_byte (List.filter Py.is_ascii_byte raw)
       ∧ ∃ lead trail,
           Py.decode_ascii_ignore raw
             = lead +:+ Py.strip (Py.decode_ascii_ignore raw) +:+ trail
           ∧ all_space lead ∧ all_space trail
           ∧ trimmed (Py.strip (Py.decode_ascii_ignore raw)))
  ∧ Py.strip (Py.decode_ascii_ignore ok_reply) = "OK".
Proof.
  intros V Hrun.
  destruct (run_switch_kvm_port_cases _ _ _ _ _ Hrun)
    as [[V' _] | (_ & r' & Hpath & ->)].
  { apply validate_port_number_false in V'. tauto. }
  split; [|split; [|reflexivity]].
  - intros waiting. by apply (transaction_path_read_reached _ _ _ _ _ _ _ _ Hpath).
  - intros size raw Hin Hread Hclose.
    rewrite (transaction_path_read_returns _ _ _ _ _ _ _ _ _
               Hpath Hin Hread Hclose).
    split; [done|]. split; [apply decode_ascii_ignore_filter | apply strip_spec].
Qed.

Lemma switch_kvm_port_decodes_response_witness :
  1 ≤ 1 ≤ 10
  ∧ run (switch_kvm_port (healthy_transport 6 ok_reply) "/dev/ttyUSB0" 1)
    = (Return {| success := true; port := 1; command := "X1,1$";
                 response := "OK"; error := None |},
       [EOpen "/dev/ttyUSB0" SERIAL_CONFIG; EResetInput; EResetOutput;
        EWrite [x58; x31; x2c; x31; x24]; EFlush; ESleep (1 # 2); EInWaiting;
        ERead 6; EClose])
  ∧ serial_in_waiting (healthy_transport 6 ok_reply) = Return 6
  ∧ serial_read (healthy_transport 6 ok_reply) 6 = Return ok_reply
  ∧ serial_close (healthy_transport 6 ok_reply) = Return ()
  ∧ ERead (Py.or_int 6 1024)
    ∈ [EOpen "/dev/ttyUSB0" SERIAL_CONFIG; EResetInput; EResetOutput;
       EWrite [x58; x31; x2c; x31; x24]; EFlush; ESleep (1 # 2); EInWaiting;
       ERead 6; EClose]
  ∧ Return {| success := true; port := 1; command := "X1,1$";
              response := "OK"; error := None |}
    = Return {| success := true; port := 1; command := protocol_command 1;
                response := Py.strip (Py.decode_ascii_ignore ok_reply);
                error := None |}.
Proof.
  destruct (switch_kvm_port_decodes_response (healthy_transport 6 ok_reply)
              "/dev/ttyUSB0" 1 _ _ ltac:(lia) eq_refl)
    as (Hreached & Hdecoded & _).
  pose proof (Hreached 6 eq_refl eq_refl eq_refl eq_refl eq_refl eq_refl eq_refl)
    as Hin.
  destruct (Hdecoded 6 ok_reply Hin eq_refl eq_refl) as [Hresult _].
  split; [lia|]. split; [reflexivity|]. split; [reflexivity|].
  split; [reflexivity|]. split; [reflexivity|]. split; [exact Hin | exact Hresult].
Defined.

(** C5, as stated, fails: the read returns the bytes of "  OK\r\n", but
    the close that follows raises, and the result is a failure with an
    empty response. *)
Lemma switch_kvm_port_decodes_response_counterexample :
  run (switch_kvm_port
         (failing_close_transport ok_reply
            (mk_exn Exception "[Errno 5] Input/output error"))
         "/dev/ttyUSB0" 1)
    = (Return {| success := false; port := 1; command := "X1,1$"; response := "";
                 error := Some "Unexpected error: [Errno 5] Input/output error" |},
       [EOpen "/dev/ttyUSB0" SERIAL_CONFIG; EResetInput; EResetOutput;
        EWrite [x58; x31; x2c; x31; x24]; EFlush; ESleep (1 # 2); EInWaiting;
        ERead 1024; EClose])
  ∧ serial_read
      (failing_close_transport ok_reply
         (mk_exn Exception "[Errno 5] Input/output error")) 1024
    = Return ok_reply
  ∧ ¬ (∀ (T : Transport) (serial_port : string) (port_num : Z)
         (r : outcome SwitchResponse) (tr : list event) (size : Z)
         (raw : list byte),
         1 ≤ port_num ≤ 10 →
         run (switch_kvm_port T serial_port port_num) = (r, tr) →
         ERead size ∈ tr →
         serial_read T size = Return raw →
         ∃ resp, r = Return resp ∧ success resp = true
                 ∧ response resp = Py.strip (Py.decode_ascii_ignore raw)).
Proof.
  split; [reflexivity|]. split; [reflexivity|].
  intros Hclaim.
  assert (Hin : ERead 1024 ∈
            [EOpen "/dev/ttyUSB0" SERIAL_CONFIG; EResetInput; EResetOutput;
             EWrite [x58; x31; x2c; x31; x24]; EFlush; ESleep (1 # 2);
             EInWaiting; ERead 1024; EClose])
    by (do 7 apply list_elem_of_further; apply list_elem_of_here).
  destruct (Hclaim
              (failing_close_transport ok_reply
                 (mk_exn Exception "[Errno 5] Input/output error"))
              "/dev/ttyUSB0" 1 _ _ 1024 ok_reply ltac:(lia) eq_refl Hin eq_refl)
    as (resp & [= <-] & Hsuccess & _).
  discriminate Hsuccess.
Qed.

(** ** The settle delay and the read *)

(** The calls of one [switch_kvm_port] from an empty log: none for a
    rejected port, one transaction path otherwise. *)
Lemma run_switch_kvm_port_read T serial_port port_num r tr size :
  run (switch_kvm_port T serial_port port_num) = (r, tr) →
  ERead size ∈ tr →
  ∃ waiting data,
    serial_in_waiting T = Return waiting
    ∧ size = Py.or_int waiting 1024
    ∧ serial_write T data = Return ()
    ∧ serial_flush T = Return ()
    ∧ time_sleep T (1 # 2) = Return ()
    ∧ tr = [EOpen serial_port SERIAL_CONFIG; EResetInput; EResetOutput;
            EWrite data; EFlush; ESleep (1 # 2); EInWaiting; ERead size;
            EClose].
Proof.
  intros Hrun Hin.
  destruct (run_switch_kvm_port_cases _ _ _ _ _ Hrun)
    as [[_ ->] | (_ & r' & Hpath & _)]; [by apply elem_of_nil in Hin|].
  destruct (transaction_path_read _ _ _ _ _ _ _ _ Hpath Hin)
    as (waiting & ? & ? & ? & ? & ? & ?).
  eauto 10.
Qed.

(** C6. Whenever one call of [switch_kvm_port] reaches the read, its calls
    were, in this order: open, the two buffer resets, the write of the
    command bytes, the flush, [time.sleep(0.5)], the query of the waiting
    count, the read, the close; and the write, the flush and the sleep had
    each returned.  The sleep is a call of its own with the fixed argument
    0.5 s (500 ms), not one of the two timeouts of the line configuration. *)
Theorem settle_delay_precedes_read
    (T : Transport) (serial_port : string) (port_num : Z)
    (r : outcome SwitchResponse) (tr : list event) (size : Z) :
  run (switch_kvm_port T serial_port port_num) = (r, tr) →
  ERead size ∈ tr →
  ∃ data,
    tr = [EOpen serial_port SERIAL_CONFIG; EResetInput; EResetOutput;
          EWrite data; EFlush; ESleep (1 # 2); EInWaiting; ERead size; EClose]
    ∧ Py.encode_ascii (protocol_command port_num) = Return data
    ∧ serial_write T data = Return ()
    ∧ serial_flush T = Return ()
    ∧ time_sleep T (1 # 2) = Return ()
    ∧ ((1 # 2) * 1000 == 500)%Q.
Proof.
  intros Hrun Hin.
  destruct (run_switch_kvm_port_read _ _ _ _ _ _ Hrun Hin)
    as (waiting & data & _ & _ & Hw & Hf & Hs & ->).
  exists data. repeat split; try done.
  destruct (run_switch_kvm_port_cases _ _ _ _ _ Hrun)
    as [[_ [=]] | (V & r' & Hpath & _)].
  assert (Hd : EWrite data ∈ [EOpen serial_port SERIAL_CONFIG; EResetInput;
                 EResetOutput; EWrite data; EFlush; ESleep (1 # 2);
                 EInWaiting; ERead size; EClose])
    by (do 3 apply list_elem_of_further; apply list_elem_of_here).
  rewrite (transaction_path_write _ _ _ _ _ _ _ _ Hpath Hd).
  by destruct (protocol_command_encode port_num V).
Qed.

Lemma settle_delay_precedes_read_witness :
  run (switch_kvm_port (healthy_transport 0 ok_reply) "/dev/ttyUSB0" 1)
    = (Return {| success := true; port := 1; command := "X1,1$";
                 response := "OK"; error := None |},
       [EOpen "/dev/ttyUSB0" SERIAL_CONFIG; EResetInput; EResetOutput;
        EWrite [x58; x31; x2c; x31; x24]; EFlush; ESleep (1 # 2); EInWaiting;
        ERead 1024; EClose])
  ∧ ERead 1024 ∈ [EOpen "/dev/ttyUSB0" SERIAL_CONFIG; EResetInput; EResetOutput;
                  EWrite [x58; x31; x2c; x31; x24]; EFlush; ESleep (1 # 2);
                  EInWaiting; ERead 1024; EClose]
  ∧ ∃ data,
      [EOpen "/dev/ttyUSB0" SERIAL_CONFIG; EResetInput; EResetOutput;
       EWrite [x58; x31; x2c; x31; x24]; EFlush; ESleep (1 # 2); EInWaiting;
       ERead 1024; EClose]
      = [EOpen "/dev/ttyUSB0" SERIAL_CONFIG; EResetInput; EResetOutput;
         EWrite data; EFlush; ESleep (1 # 2); EInWaiting; ERead 1024; EClose]
      ∧ Py.encode_ascii (protocol_command 1) = Return data
      ∧ serial_write (healthy_transport 0 ok_reply) data = Return ()
      ∧ serial_flush (healthy_transport 0 ok_reply) = Return ()
      ∧ time_sleep (healthy_transport 0 ok_reply) (1 # 2) = Return ()
      ∧ ((1 # 2) * 1000 == 500)%Q.
Proof.
  assert (Hin : ERead 1024 ∈
            [EOpen "/dev/ttyUSB0" SERIAL_CONFIG; EResetInput; EResetOutput;
             EWrite [x58; x31; x2c; x31; x24]; EFlush; ESleep (1 # 2);
             EInWaiting; ERead 1024; EClose])
    by (do 7 apply list_elem_of_further; apply list_elem_of_here).
  split; [reflexivity|]. split; [exact Hin|].
  apply (settle_delay_precedes_read (healthy_transport 0 ok_reply)
           "/dev/ttyUSB0" 1 _ _ 1024 eq_refl Hin).
Defined.

(** C7, as the code has it. Whenever one call of [switch_kvm_port] reaches
    the read, the size it asks for is the waiting count the device reported
    when that count is not zero, with no cap, and 1024 when the count is
    zero.  So the size is between 1 and 1024 whenever the count is at most
    1024, it is 1024 (at least one unit) when nothing is waiting, and it
    exceeds 1024 when more than 1024 bytes are waiting.  The device was
    opened, first of all calls, with the fixed line configuration, whose
    read timeout is 1.0 s. *)
Theorem read_size_follows_in_waiting
    (T : Transport) (serial_port : string) (port_num : Z)
    (r : outcome SwitchResponse) (tr : list event) (size : Z) :
  run (switch_kvm_port T serial_port port_num) = (r, tr) →
  ERead size ∈ tr →
  ∃ waiting,
    serial_in_waiting T = Return waiting
    ∧ size = (if waiting =? 0 then 1024 else waiting)
    ∧ (waiting = 0 → size = 1024)
    ∧ (0 ≤ waiting ≤ 1024 → 1 ≤ size ≤ 1024)
    ∧ (1024 < waiting → size = waiting ∧ 1024 < size)
    ∧ head tr = Some (EOpen serial_port SERIAL_CONFIG)
    ∧ (timeout SERIAL_CONFIG == 1)%Q.
Proof.
  intros Hrun Hin.
  destruct (run_switch_kvm_port_read _ _ _ _ _ _ Hrun Hin)
    as (waiting & data & Hn & -> & _ & _ & _ & ->).
  exists waiting. unfold Py.or_int.
  repeat split; try done; destruct (Z.eqb_spec waiting 0); lia.
Qed.

Lemma read_size_follows_in_waiting_witness :
  run (switch_kvm_port (healthy_transport 0 ok_reply) "/dev/ttyUSB0" 1)
    = (Return {| success := true; port := 1; command := "X1,1$";
                 response := "OK"; error := None |},
       [EOpen "/dev/ttyUSB0" SERIAL_CONFIG; EResetInput; EResetOutput;
        EWrite [x58; x31; x2c; x31; x24]; EFlush; ESleep (1 # 2); EInWaiting;
        ERead 1024; EClose])
  ∧ ERead 1024 ∈ [EOpen "/dev/ttyUSB0" SERIAL_CONFIG; EResetInput; EResetOutput;
                  EWrite [x58; x31; x2c; x31; x24]; EFlush; ESleep (1 # 2);
                  EInWaiting; ERead 1024; EClose]
  ∧ ∃ waiting,
      serial_in_waiting (healthy_transport 0 ok_reply) = Return waiting
      ∧ 1024 = (if waiting =? 0 then 1024 else waiting)
      ∧ (waiting = 0 → 1024 = 1024)
      ∧ (0 ≤ waiting ≤ 1024 → 1 ≤ 1024 ≤ 1024)
      ∧ (1024 < waiting → 1024 = waiting ∧ 1024 < 1024)
      ∧ head [EOpen "/dev/ttyUSB0" SERIAL_CONFIG; EResetInput; EResetOutput;
              EWrite [x58; x31; x2c; x31; x24]; EFlush; ESleep (1 # 2);
              EInWaiting; ERead 1024; EClose]
        = Some (EOpen "/dev/ttyUSB0" SERIAL_CONFIG)
      ∧ (timeout SERIAL_CONFIG == 1)%Q.
Proof.
  assert (Hin : ERead 1024 ∈
            [EOpen "/dev/ttyUSB0" SERIAL_CONFIG; EResetInput; EResetOutput;
             EWrite [x58; x31; x2c; x31; x24]; EFlush; ESleep (1 # 2);
             EInWaiting; ERead 1024; EClose])
    by (do 7 apply list_elem_of_further; apply list_elem_of_here).
  split; [reflexivity|]. split; [exact Hin|].
  apply (read_size_follows_in_waiting (healthy_transport 0 ok_reply)
           "/dev/ttyUSB0" 1 _ _ 1024 eq_refl Hin).
Defined.

(** C7, as stated, fails: with 1025 bytes waiting the read asks for 1025
    bytes and the response holds 1025 characters, above the cap of 1024. *)
Lemma read_cap_1024_counterexample :
  run (switch_kvm_port (healthy_transport 1025 (repeat x41 1025))
         "/dev/ttyUSB0" 1)
    = (Return {| success := true; port := 1; command := "X1,1$";
                 response := String.string_of_list_ascii (repeat "A"%char 1025);
                 error := None |},
       [EOpen "/dev/ttyUSB0" SERIAL_CONFIG; EResetInput; EResetOutput;
        EWrite [x58; x31; x2c; x31; x24]; EFlush; ESleep (1 # 2); EInWaiting;
        ERead 1025; EClose])
  ∧ ¬ (1025 ≤ 1024)
  ∧ ¬ (∀ T serial_port port_num r tr size,
         run (switch_kvm_port T serial_port port_num) = (r, tr) →
         ERead size ∈ tr → size ≤ 1024).
Proof.
  split; [vm_compute; reflexivity|]. split; [lia|].
  intros Hcap.
  assert (Hin : ERead 1025 ∈
            [EOpen "/dev/ttyUSB0" SERIAL_CONFIG; EResetInput; EResetOutput;
             EWrite [x58; x31; x2c; x31; x24]; EFlush; ESleep (1 # 2);
             EInWaiting; ERead 1025; EClose])
    by (do 7 apply list_elem_of_further; apply list_elem_of_here).
  specialize (Hcap (healthy_transport 1025 []) "/dev/ttyUSB0" 1 _ _ 1025
                eq_refl Hin).
  lia.
Qed.

(** ** Friendly port names *)

Lemma foldl_insert_lookup (f : Z → string) (l : list Z) (m : gmap Z string) (p : Z) :
  foldl (λ acc k, <[k := f k]> acc) m l !! p
  = if decide (p ∈ l) then Some (f p) else m !! p.
Proof.
  revert m. induction l as [|k l IH]; intros m; cbn [foldl].
  - by rewrite decide_False by apply not_elem_of_nil.
  - rewrite IH. destruct (decide (p ∈ l)) as [Hin|Hout].
    + by rewrite decide_True by (by apply list_elem_of_further).
    + destruct (decide (p = k)) as [->|Hne].
      * rewrite lookup_insert_eq.
        by rewrite decide_True by apply list_elem_of_here.
      * rewrite lookup_insert_ne by done.
        rewrite decide_False; [done|].
        rewrite elem_of_cons. tauto.
Qed.

Lemma get_port_names_from_env_lookup (environ : gmap string string) (p : Z) :
  get_port_names_from_env environ !! p
  = if decide (1 ≤ p ≤ 10) then Some (port_name environ p) else None.
Proof.
  unfold get_port_names_from_env, AVAILABLE_PORTS.
  rewrite (foldl_insert_lookup (port_name environ)).
  destruct (decide (p ∈ seqZ 1 10)) as [Hin|Hout];
    rewrite elem_of_seqZ in *.
  - by rewrite decide_True by lia.
  - rewrite decide_False by lia. apply lookup_empty.
Qed.

Lemma port_name_nonempty (environ : gmap string string) (p : Z) :
  port_name environ p ≠ "".
Proof.
  unfold port_name.
  destruct (environ !! _) as [[|c v]|]; cbn [Py.truthy]; done.
Qed.

(** C10. For every environment, the keys of the mapping returned by
    [get_port_names_from_env] are exactly the integers 1 to 10; the value
    at port p is the value of the variable KVM_PORT_p_NAME when that
    variable is set and not empty, and "Server p" otherwise; no value is
    empty. *)
Theorem get_port_names_from_env_spec (environ : gmap string string) :
  (∀ p, p ∈ dom (get_port_names_from_env environ) ↔ 1 ≤ p ≤ 10)
  ∧ (∀ p, 1 ≤ p ≤ 10 →
       get_port_names_from_env environ !! p =
         Some match environ !! ("KVM_PORT_" +:+ Py.str_int p +:+ "_NAME") with
              | Some v => if decide (v = "") then "Server " +:+ Py.str_int p else v
              | None => "Server " +:+ Py.str_int p
              end)
  ∧ (∀ p v, get_port_names_from_env environ !! p = Some v → v ≠ "").
Proof.
  split; [|split].
  - intros p. rewrite elem_of_dom, get_port_names_from_env_lookup.
    destruct (decide (1 ≤ p ≤ 10)); split; try done; by eauto.
  - intros p Hp. rewrite get_port_names_from_env_lookup.
    rewrite decide_True by done. f_equal. unfold port_name.
    destruct (environ !! _) as [[|c v]|]; done.
  - intros p v. rewrite get_port_names_from_env_lookup.
    destruct (decide (1 ≤ p ≤ 10)); [|done].
    intros [= <-]. apply port_name_nonempty.
Qed.

(** ** Serial port discovery *)

Lemma prefix_app (a s : string) :
  String.prefix a s = true ↔ ∃ post, s = a +:+ post.
Proof.
  revert s. induction a as [|x a IH]; intros s.
  - destruct s; simpl; split; eauto.
  - destruct s as [|y s]; simpl.
    + split; [done | by intros [? ?]].
    + destruct (ascii_dec x y) as [->|Hne].
      * rewrite IH. split; intros [post Hp]; exists post.
        -- by rewrite Hp.
        -- by injection Hp.
      * split; [done | intros [post Hp]; by injection Hp].
Qed.

(** [in] finds exactly the contiguous occurrences. *)
Lemma contains_app (needle hay : string) :
  Py.contains needle hay = true ↔ ∃ pre post, hay = pre +:+ needle +:+ post.
Proof.
  induction hay as [|c hay IH].
  - cbn [Py.contains]. rewrite orb_false_r, prefix_app. split.
    + intros [post Hp]. by exists "", post.
    + intros ([|? ?] & post & Hp); [by exists post | done].
  - cbn [Py.contains]. rewrite orb_true_iff, prefix_app, IH. split.
    + intros [[post Hp] | (pre & post & Hp)].
      * by exists "", post.
      * exists (String c pre), post. simpl. by rewrite Hp.
    + intros ([|x pre] & post & Hp).
      * left. by exists post.
      * right. exists pre, post. simpl in Hp. by injection Hp.
Qed.

Lemma lower_app (a b : string) : Py.lower (a +:+ b) = Py.lower a +:+ Py.lower b.
Proof. induction a as [|x a IH]; [done|]. simpl. by rewrite IH. Qed.

Lemma lower_app_inv (s x y : string) :
  Py.lower s = x +:+ y → ∃ a b, s = a +:+ b ∧ Py.lower a = x ∧ Py.lower b = y.
Proof.
  revert s. induction x as [|c x IH]; intros s Hs.
  - by exists "", s.
  - destruct s as [|d s]; [done|]. simpl in Hs. injection Hs as Hc Hs.
    destruct (IH s Hs) as (a & b & -> & Ha & Hb).
    exists (String d a), b. simpl. by rewrite Hc, Ha.
Qed.

Lemma filter_keyword_lower (keyword : string) :
  keyword ∈ FILTER_KEYWORDS → Py.lower keyword = keyword ∧ keyword ≠ "".
Proof.
  unfold FILTER_KEYWORDS. rewrite !elem_of_cons, elem_of_nil.
  intros [->|[->|[->|[->|[->|[]]]]]]; by split.
Qed.

(** The substring test on the lowered description is the match up to
    case. *)
Lemma contains_lower_occurs (keyword text : string) :
  Py.lower keyword = keyword →
  Py.contains keyword (Py.lower text) = true ↔ occurs_ignoring_case keyword text.
Proof.
  intros Hk. rewrite contains_app. unfold occurs_ignoring_case. split.
  - intros (pre & post & Hp).
    apply lower_app_inv in Hp as (a & rest & -> & _ & Hrest).
    apply lower_app_inv in Hrest as (mid & b & -> & Hmid & _).
    exists a, mid, b. by rewrite Hk.
  - intros (pre & mid & post & -> & Hmid).
    exists (Py.lower pre), (Py.lower post).
    by rewrite !lower_app, Hmid, Hk.
Qed.

Lemma any_keyword_true (port : ListPortInfo.t) (keywords : list string) :
  any_keyword port keywords = Return true →
  ∃ d keyword,
    ListPortInfo.description port = Some d
    ∧ keyword ∈ keywords
    ∧ Py.contains keyword (Py.lower d) = true.
Proof.
  induction keywords as [|k keywords IH]; [done|].
  cbn [any_keyword]. unfold description_lower.
  destruct (ListPortInfo.description port) as [d|] eqn:Hd; [|done].
  cbn [outcome_bind]. destruct (Py.contains k (Py.lower d)) eqn:Hk.
  - intros _. exists d, k. repeat split; [apply list_elem_of_here | done].
  - intros H.
    destruct (IH H) as (d' & k' & [= <-] & Hin & Hc).
    exists d, k'. repeat split; [by apply list_elem_of_further | done].
Qed.

Lemma collect_ports_matched (ports : list ListPortInfo.t) :
  ∀ serial_ports result,
    Forall keyword_matched serial_ports →
    collect_ports ports serial_ports = Return result →
    Forall keyword_matched result.
Proof.
  induction ports as [|port ports IH]; intros acc result Hacc; cbn [collect_ports].
  - by intros [= <-].
  - destruct (any_keyword port FILTER_KEYWORDS) as [[|]|e] eqn:Hany;
      cbn [outcome_bind]; [| by apply IH | done].
    apply IH. apply Forall_app. split; [done|].
    apply Forall_singleton.
    apply any_keyword_true in Hany as (d & keyword & Hd & Hin & Hc).
    destruct (filter_keyword_lower keyword Hin) as [Hlow Hne].
    exists keyword. split; [done|].
    cbn [description]. unfold description_or_default. rewrite Hd.
    destruct d as [|c d].
    + destruct keyword; [done|]. cbn in Hc. done.
    + cbn [Py.truthy]. by apply contains_lower_occurs.
Qed.

(** The code-point order of strings is transitive. *)
Lemma string_compare_trans (a : string) :
  ∀ b c, String.compare a b ≠ Gt → String.compare b c ≠ Gt →
         String.compare a c ≠ Gt.
Proof.
  induction a as [|x a IH]; intros [|y b] [|z c]; cbn [String.compare]; try done.
  unfold Ascii.compare.
  destruct (N.compare_spec (N_of_ascii x) (N_of_ascii y)),
           (N.compare_spec (N_of_ascii y) (N_of_ascii z)),
           (N.compare_spec (N_of_ascii x) (N_of_ascii z));
    try done; try lia; eauto.
Qed.

Lemma string_leb_trans (a b c : string) :
  String.leb a b = true → String.leb b c = true → String.leb a c = true.
Proof.
  unfold String.leb. intros Hab Hbc.
  pose proof (string_compare_trans a b c) as H.
  destruct (String.compare a b), (String.compare b c), (String.compare a c);
    try done; exfalso; by apply H.
Qed.

Lemma string_ltb_leb (a b : string) :
  String.ltb a b = true → String.leb a b = true.
Proof. unfold String.ltb, String.leb. by destruct (String.compare a b). Qed.

Lemma string_ltb_false_leb (a b : string) :
  String.ltb a b = false → String.leb b a = true.
Proof.
  unfold String.ltb, String.leb. rewrite (String.compare_antisym a b).
  by destruct (String.compare b a).
Qed.

Section Sorting.
Context {A : Type} (key : A → string).

Lemma insert_by_key_perm (x : A) (l : list A) :
  Permutation (insert_by_key key x l) (x :: l).
Proof.
  induction l as [|y l IH]; cbn [insert_by_key]; [done|].
  destruct (String.ltb (key x) (key y)); [done|].
  rewrite IH. apply perm_swap.
Qed.

Lemma insert_by_key_sorted (x : A) (l : list A) :
  StronglySorted (key_le key) l → StronglySorted (key_le key) (insert_by_key key x l).
Proof.
  induction 1 as [|y l Hl IH Hy]; cbn [insert_by_key].
  - repeat constructor.
  - destruct (String.ltb (key x) (key y)) eqn:Hlt.
    + apply string_ltb_leb in Hlt.
      constructor; [by constructor|].
      constructor; [done|].
      eapply Forall_impl; [exact Hy|].
      intros z Hz. unfold key_le in *. by eapply string_leb_trans.
    + apply string_ltb_false_leb in Hlt.
      constructor; [done|].
      rewrite insert_by_key_perm. by constructor.
Qed.

Lemma sort_by_key_acc (l acc : list A) :
  StronglySorted (key_le key) acc →
  StronglySorted (key_le key) (foldl (λ sorted x, insert_by_key key x sorted) acc l)
  ∧ Permutation (foldl (λ sorted x, insert_by_key key x sorted) acc l) (acc ++ l).
Proof.
  revert acc. induction l as [|x l IH]; intros acc Hacc; cbn [foldl].
  - by rewrite app_nil_r.
  - destruct (IH (insert_by_key key x acc)) as [Hs Hp];
      [by apply insert_by_key_sorted|].
    split; [done|].
    rewrite Hp, insert_by_key_perm. apply Permutation_middle.
Qed.

(** The sort returns its input rearranged in ascending order of the keys. *)
Lemma sort_by_key_sorted (l : list A) :
  StronglySorted (key_le key) (sort_by_key key l) ∧ Permutation (sort_by_key key l) l.
Proof. apply (sort_by_key_acc l []). constructor. Qed.
End Sorting.

(** C9. [get_serial_ports] never raises, whatever the port enumeration
    answers: it returns a list.  When the enumeration itself raises, the
    list is empty.  Every entry of the returned list has a description in
    which one of the keywords usb, serial, ch340, ftdi, cp210 occurs up to
    letter case, and the list is in ascending order of the device names. *)
Theorem get_serial_ports_safe (comports : outcome (list ListPortInfo.t)) :
  ∃ serial_ports,
    get_serial_ports comports = Return serial_ports
    ∧ (∀ e, comports = Raise e → serial_ports = [])
    ∧ Forall (λ info, ∃ keyword,
                keyword ∈ ["usb"; "serial"; "ch340"; "ftdi"; "cp210"]
                ∧ occurs_ignoring_case keyword (description info))
             serial_ports
    ∧ StronglySorted device_le serial_ports.
Proof.
  unfold get_serial_ports.
  destruct comports as [ports|[cls msg]]; cbn [outcome_bind].
  - destruct (collect_ports ports []) as [found|[cls msg]] eqn:Hc;
      cbn [outcome_bind].
    + destruct (sort_by_key_sorted device found) as [Hs Hp].
      exists (sort_by_key device found). repeat split; [done | | done].
      rewrite Hp. by apply (collect_ports_matched ports [] found).
    + exists []. destruct cls; repeat split; by constructor.
  - exists []. destruct cls; repeat split; by constructor.
Qed.

(** * Further properties *)

(** ** The shape of one transaction *)

(** The calls of the [with] body are a non-empty initial segment of the
    program order. *)
Lemma exchange_path_prefix T port_num cmd data r evs :
  exchange_path T port_num cmd data r evs →
  ∃ k size, (1 ≤ k ≤ 7)%nat ∧ evs = take k (exchange_calls data size).
Proof.
  intros Hex. inversion Hex; subst.
  - exists 1%nat, 0. split; [lia | reflexivity].
  - exists 2%nat, 0. split; [lia | reflexivity].
  - exists 3%nat, 0. split; [lia | reflexivity].
  - exists 4%nat, 0. split; [lia | reflexivity].
  - exists 5%nat, 0. split; [lia | reflexivity].
  - exists 6%nat, 0. split; [lia | reflexivity].
  - exists 7%nat, (Py.or_int waiting 1024). split; [lia | reflexivity].
  - exists 7%nat, (Py.or_int waiting 1024). split; [lia | reflexivity].
Qed.

Lemma exchange_path_no_close T port_num cmd data r evs :
  exchange_path T port_num cmd data r evs → EClose ∉ evs.
Proof. intros Hex Hin. inversion Hex; subst; split_elem Hin. Qed.

(** X1. The library calls of one [switch_kvm_port] are always an initial
    segment of one fixed sequence: nothing for a rejected port; the open
    alone when the open raises; otherwise the open, between one and seven
    of reset-input, reset-output, write, flush, sleep, waiting count, read
    in that order, and the close.  No call is repeated or reordered, so
    there is no retry. *)
Theorem switch_kvm_port_call_order
    (T : Transport) (serial_port : string) (port_num : Z)
    (r : outcome SwitchResponse) (tr : list event) :
  run (switch_kvm_port T serial_port port_num) = (r, tr) →
  (¬ (1 ≤ port_num ≤ 10) ∧ tr = [])
  ∨ (1 ≤ port_num ≤ 10
     ∧ ((∃ e, serial_open T serial_port SERIAL_CONFIG = Raise e)
        ∧ tr = [EOpen serial_port SERIAL_CONFIG]
        ∨ ∃ k size,
            (1 ≤ k ≤ 7)%nat
            ∧ tr = EOpen serial_port SERIAL_CONFIG
                   :: take k (exchange_calls
                                (String.list_byte_of_string
                                   (protocol_command port_num)) size)
                   ++ [EClose])).
Proof.
  intros Hrun.
  destruct (run_switch_kvm_port_cases _ _ _ _ _ Hrun)
    as [[V ->] | (V & r' & Hpath & _)].
  - left. by apply validate_port_number_false in V.
  - right. split; [done|].
    inversion Hpath as [e Hopen | ? ? _ Hex _ | ? ? ? _ Hex _]; subst.
    + left. eauto.
    + right. destruct (exchange_path_prefix _ _ _ _ _ _ Hex) as (k & size & ? & ->).
      eauto.
    + right. destruct (exchange_path_prefix _ _ _ _ _ _ Hex) as (k & size & ? & ->).
      eauto.
Qed.

Lemma switch_kvm_port_call_order_witness :
  run (switch_kvm_port
         (failing_write_transport (mk_exn SerialException "Write timeout"))
         "/dev/ttyUSB0" 3)
    = (Return {| success := false; port := 3; command := "X3,1$"; response := "";
                 error := Some "Serial communication failed: Write timeout" |},
       [EOpen "/dev/ttyUSB0" SERIAL_CONFIG; EResetInput; EResetOutput;
        EWrite [x58; x33; x2c; x31; x24]; EClose])
  ∧ ((¬ (1 ≤ 3 ≤ 10)
      ∧ [EOpen "/dev/ttyUSB0" SERIAL_CONFIG; EResetInput; EResetOutput;
         EWrite [x58; x33; x2c; x31; x24]; EClose] = [])
     ∨ (1 ≤ 3 ≤ 10
        ∧ ((∃ e, serial_open
                   (failing_write_transport (mk_exn SerialException "Write timeout"))
                   "/dev/ttyUSB0" SERIAL_CONFIG = Raise e)
           ∧ [EOpen "/dev/ttyUSB0" SERIAL_CONFIG; EResetInput; EResetOutput;
              EWrite [x58; x33; x2c; x31; x24]; EClose]
             = [EOpen "/dev/ttyUSB0" SERIAL_CONFIG]
           ∨ ∃ k size,
               (1 ≤ k ≤ 7)%nat
               ∧ [EOpen "/dev/ttyUSB0" SERIAL_CONFIG; EResetInput; EResetOutput;
                  EWrite [x58; x33; x2c; x31; x24]; EClose]
                 = EOpen "/dev/ttyUSB0" SERIAL_CONFIG
                   :: take k (exchange_calls
                                (String.list_byte_of_string (protocol_command 3))
                                size)
                   ++ [EClose]))).
Proof.
  split; [reflexivity|].
  apply (switch_kvm_port_call_order
           (failing_write_transport (mk_exn SerialException "Write timeout"))
           "/dev/ttyUSB0" 3 _ _ eq_refl).
Defined.

(** X2. The device is closed exactly when it was opened: the log of a call
    contains a close if and only if the port is valid and the open
    returned, and then the close occurs once, as the last call. *)
Theorem switch_kvm_port_releases_device
    (T : Transport) (serial_port : string) (port_num : Z)
    (r : outcome SwitchResponse) (tr : list event) :
  run (switch_kvm_port T serial_port port_num) = (r, tr) →
  (EClose ∈ tr ↔
     1 ≤ port_num ≤ 10 ∧ serial_open T serial_port SERIAL_CONFIG = Return ())
  ∧ (EClose ∈ tr → ∃ before, tr = before ++ [EClose] ∧ EClose ∉ before).
Proof.
  intros Hrun.
  destruct (run_switch_kvm_port_cases _ _ _ _ _ Hrun)
    as [[V ->] | (V & r' & Hpath & _)].
  - apply validate_port_number_false in V.
    split; [split|]; [by intros ?%elem_of_nil | tauto | by intros ?%elem_of_nil].
  - inversion Hpath as [e Hopen | ? evs Hopen Hex _ | ? evs ? Hopen Hex _]; subst.
    + split; [split|]; intros Hin; try (split_elem Hin; fail).
      destruct Hin as [_ Hin]. congruence.
    + pose proof (exchange_path_no_close _ _ _ _ _ _ Hex) as Hno.
      split; [split; [done|]|].
      * intros _. rewrite elem_of_cons, elem_of_app, list_elem_of_singleton. tauto.
      * intros _. exists (EOpen serial_port SERIAL_CONFIG :: evs). split; [done|].
        rewrite elem_of_cons. intros [?|?]; [discriminate | done].
    + pose proof (exchange_path_no_close _ _ _ _ _ _ Hex) as Hno.
      split; [split; [done|]|].
      * intros _. rewrite elem_of_cons, elem_of_app, list_elem_of_singleton. tauto.
      * intros _. exists (EOpen serial_port SERIAL_CONFIG :: evs). split; [done|].
        rewrite elem_of_cons. intros [?|?]; [discriminate | done].
Qed.

Lemma switch_kvm_port_releases_device_witness :
  run (switch_kvm_port
         (failing_write_transport (mk_exn SerialException "Write timeout"))
         "/dev/ttyUSB0" 3)
    = (Return {| success := false; port := 3; command := "X3,1$"; response := "";
                 error := Some "Serial communication failed: Write timeout" |},
       [EOpen "/dev/ttyUSB0" SERIAL_CONFIG; EResetInput; EResetOutput;
        EWrite [x58; x33; x2c; x31; x24]; EClose])
  ∧ (EClose ∈ [EOpen "/dev/ttyUSB0" SERIAL_CONFIG; EResetInput; EResetOutput;
               EWrite [x58; x33; x2c; x31; x24]; EClose] ↔
       1 ≤ 3 ≤ 10
       ∧ serial_open
           (failing_write_transport (mk_exn SerialException "Write timeout"))
           "/dev/ttyUSB0" SERIAL_CONFIG = Return ())
  ∧ (EClose ∈ [EOpen "/dev/ttyUSB0" SERIAL_CONFIG; EResetInput; EResetOutput;
               EWrite [x58; x33; x2c; x31; x24]; EClose] →
     ∃ before,
       [EOpen "/dev/ttyUSB0" SERIAL_CONFIG; EResetInput; EResetOutput;
        EWrite [x58; x33; x2c; x31; x24]; EClose] = before ++ [EClose]
       ∧ EClose ∉ before).
Proof.
  split; [reflexivity|].
  apply (switch_kvm_port_releases_device
           (failing_write_transport (mk_exn SerialException "Write timeout"))
           "/dev/ttyUSB0" 3 _ _ eq_refl).
Defined.

(** ** When the switch reports success *)

Lemma transaction_path_return_succeeds T serial_port port_num cmd data resp evs :
  transaction_path T serial_port port_num cmd data (Return resp) evs →
  ∃ raw, transport_succeeds T serial_port data raw.
Proof.
  intros Hpath. inversion Hpath as [| ? ? Hopen Hex Hclose |]; subst.
  inversion Hex; subst. eexists. unfold transport_succeeds. eauto 12.
Qed.

(** X3. For a valid port, [switch_kvm_port] reports success=true if and
    only if every library call of the transaction returned: the open, both
    buffer resets, the write, the flush, the sleep, the waiting count, the
    read and the close.  A close that raises after a good read turns the
    result into a failure. *)
Theorem switch_kvm_port_success_iff
    (T : Transport) (serial_port : string) (port_num : Z) :
  1 ≤ port_num ≤ 10 →
  (∃ resp tr, run (switch_kvm_port T serial_port port_num) = (Return resp, tr)
              ∧ success resp = true)
  ↔ ∃ raw, transport_succeeds T serial_port
             (String.list_byte_of_string (protocol_command port_num)) raw.
Proof.
  intros V.
  destruct (switch_kvm_port_valid T serial_port port_num [] V)
    as (r & evs & Hpath & Hrun).
  split.
  - intros (resp & tr & Hrun' & Hs). unfold run in Hrun'.
    rewrite Hrun in Hrun'. injection Hrun' as <- _.
    destruct r as [resp|e]; [|discriminate Hs].
    by eapply transaction_path_return_succeeds.
  - intros [raw Hok].
    rewrite (transaction_path_succeeds _ _ _ _ _ _ _ _ Hok Hpath) in Hrun.
    unfold run. rewrite Hrun. by do 2 eexists.
Qed.

Lemma switch_kvm_port_success_iff_witness :
  1 ≤ 1 ≤ 10
  ∧ ((∃ resp tr,
        run (switch_kvm_port (healthy_transport 6 ok_reply) "/dev/ttyUSB0" 1)
          = (Return resp, tr)
        ∧ success resp = true)
     ↔ ∃ raw, transport_succeeds (healthy_transport 6 ok_reply) "/dev/ttyUSB0"
                (String.list_byte_of_string (protocol_command 1)) raw).
Proof.
  split; [lia|].
  apply (switch_kvm_port_success_iff (healthy_transport 6 ok_reply) "/dev/ttyUSB0" 1).
  lia.
Defined.

(** ** The response text *)

Lemma list_ascii_of_string_app (a b : string) :
  String.list_ascii_of_string (a +:+ b)
  = String.list_ascii_of_string a ++ String.list_ascii_of_string b.
Proof. induction a as [|x a IH]; [done|]. simpl. by rewrite IH. Qed.

Lemma code_ascii_of_byte (b : byte) :
  Py.code (ascii_of_byte b) = Z.of_N (Byte.to_N b).
Proof. by destruct b. Qed.

Lemma decode_ascii_ignore_all_ascii (bs : list byte) :
  all_ascii (Py.decode_ascii_ignore bs).
Proof.
  unfold all_ascii. rewrite decode_ascii_ignore_filter.
  induction bs as [|b bs IH]; cbn [List.filter]; [constructor|].
  destruct (Py.is_ascii_byte b) eqn:Hb; [|done].
  cbn [map]. constructor; [|done].
  rewrite code_ascii_of_byte. unfold Py.is_ascii_byte in Hb.
  apply N.ltb_lt in Hb. lia.
Qed.

Lemma strip_all_ascii (s : string) : all_ascii s → all_ascii (Py.strip s).
Proof.
  destruct (strip_spec s) as (lead & trail & Heq & _).
  unfold all_ascii. rewrite Heq at 1.
  rewrite !list_ascii_of_string_app, !Forall_app. tauto.
Qed.

(** X4. Whatever the device sends and whatever goes wrong, the response
    text of the result of [switch_kvm_port] consists of characters below
    128 only and has no white space at its start or at its end. *)
Theorem switch_kvm_port_response_clean
    (T : Transport) (serial_port : string) (port_num : Z)
    (resp : SwitchResponse) (tr : list event) :
  run (switch_kvm_port T serial_port port_num) = (Return resp, tr) →
  all_ascii (response resp) ∧ trimmed (response resp).
Proof.
  intros Hrun.
  assert (Hempty : all_ascii "" ∧ trimmed "").
  { split; [constructor | by split]. }
  destruct (run_switch_kvm_port_cases _ _ _ _ _ Hrun)
    as [[V ->] | (V & r' & Hpath & Hr)].
  - by rewrite (switch_kvm_port_rejects_return _ _ _ _ _ _ V Hrun).
  - injection Hr as ->. destruct r' as [resp|e]; [|done].
    apply transaction_path_return in Hpath as (? & raw & _ & _ & ->).
    cbn [settle response]. split.
    + apply strip_all_ascii, decode_ascii_ignore_all_ascii.
    + by destruct (strip_spec (Py.decode_ascii_ignore raw)) as (? & ? & _ & _ & _ & ?).
Qed.

Lemma switch_kvm_port_response_clean_witness :
  run (switch_kvm_port (healthy_transport 7 [x09; xff; x4f; x80; x4b; x20; x1f])
         "/dev/ttyUSB0" 1)
    = (Return {| success := true; port := 1; command := "X1,1$";
                 response := "OK"; error := None |},
       [EOpen "/dev/ttyUSB0" SERIAL_CONFIG; EResetInput; EResetOutput;
        EWrite [x58; x31; x2c; x31; x24]; EFlush; ESleep (1 # 2); EInWaiting;
        ERead 7; EClose])
  ∧ all_ascii "OK" ∧ trimmed "OK".
Proof.
  split; [reflexivity|].
  apply (switch_kvm_port_response_clean
           (healthy_transport 7 [x09; xff; x4f; x80; x4b; x20; x1f])
           "/dev/ttyUSB0" 1 _ _ eq_refl).
Defined.

(** ** The port range and the table *)

(** X5. The three places that fix the port range agree: an integer is in
    [AVAILABLE_PORTS] if and only if [validate_port_number] accepts it, if
    and only if [PORT_COMMANDS] has an entry for it.  So the lookup after
    validation never meets a missing key, and every advertised port can be
    switched to. *)
Theorem port_range_consistent (port : Z) :
  (port ∈ AVAILABLE_PORTS ↔ validate_port_number port = true)
  ∧ (validate_port_number port = true ↔ is_Some (PORT_COMMANDS !! port))
  ∧ (validate_port_number port = true →
       ∃ cmd, Py.dict_getitem PORT_COMMANDS port = Return cmd).
Proof.
  unfold AVAILABLE_PORTS, Py.dict_getitem.
  rewrite elem_of_seqZ, validate_port_number_true, PORT_COMMANDS_lookup.
  destruct (validate_port_number port) eqn:V.
  - apply validate_port_number_true in V.
    repeat split; try lia; eauto.
  - apply validate_port_number_false in V.
    repeat split; try lia; try done; by intros [? ?].
Qed.

(** X6. No two ports share a command: equal table entries come from equal
    port numbers. *)
Theorem port_commands_injective (p q : Z) (cmd : string) :
  PORT_COMMANDS !! p = Some cmd → PORT_COMMANDS !! q = Some cmd → p = q.
Proof.
  rewrite !PORT_COMMANDS_lookup.
  destruct (validate_port_number p) eqn:Vp; [|done].
  destruct (validate_port_number q) eqn:Vq; [|done].
  apply validate_port_number_true in Vp, Vq.
  intros [= <-] [= Heq].
  port_cases p Vp; port_cases q Vq; try reflexivity; discriminate Heq.
Qed.

Lemma port_commands_injective_witness :
  PORT_COMMANDS !! 10 = Some "XA,1$" ∧ (10 : Z) = 10.
Proof.
  split; [reflexivity|].
  apply (port_commands_injective 10 10 "XA,1$"); reflexivity.
Defined.

(** X7. Encoding and decoding agree on the commands: for a valid port,
    when every call returns and the device echoes the command bytes
    followed by CR LF, the response text is the command itself. *)
Theorem switch_kvm_port_echo
    (T : Transport) (serial_port : string) (port_num : Z) :
  1 ≤ port_num ≤ 10 →
  transport_succeeds T serial_port
    (String.list_byte_of_string (protocol_command port_num))
    (String.list_byte_of_string (protocol_command port_num) ++ [x0d; x0a]) →
  ∃ tr,
    run (switch_kvm_port T serial_port port_num) =
      (Return {| success := true; port := port_num;
                 command := protocol_command port_num;
                 response := protocol_command port_num;
                 error := None |},
       tr).
Proof.
  intros V Hok.
  destruct (switch_kvm_port_valid T serial_port port_num [] V)
    as (r & evs & Hpath & Hrun).
  rewrite (transaction_path_succeeds _ _ _ _ _ _ _ _ Hok Hpath) in Hrun.
  exists evs. unfold run. rewrite Hrun. cbn [settle app]. do 3 f_equal.
  clear - V. port_cases port_num V; reflexivity.
Qed.

Lemma switch_kvm_port_echo_witness :
  1 ≤ 10 ≤ 10
  ∧ transport_succeeds
      (healthy_transport 7 [x58; x41; x2c; x31; x24; x0d; x0a]) "/dev/ttyUSB0"
      (String.list_byte_of_string (protocol_command 10))
      (String.list_byte_of_string (protocol_command 10) ++ [x0d; x0a])
  ∧ ∃ tr,
      run (switch_kvm_port
             (healthy_transport 7 [x58; x41; x2c; x31; x24; x0d; x0a])
             "/dev/ttyUSB0" 10) =
        (Return {| success := true; port := 10; command := "XA,1$";
                   response := "XA,1$"; error := None |},
         tr).
Proof.
  assert (Hok : transport_succeeds
                  (healthy_transport 7 [x58; x41; x2c; x31; x24; x0d; x0a])
                  "/dev/ttyUSB0"
                  (String.list_byte_of_string (protocol_command 10))
                  (String.list_byte_of_string (protocol_command 10) ++ [x0d; x0a])).
  { repeat split; try reflexivity. exists 7. split; reflexivity. }
  split; [lia|]. split; [exact Hok|].
  apply (switch_kvm_port_echo
           (healthy_transport 7 [x58; x41; x2c; x31; x24; x0d; x0a])
           "/dev/ttyUSB0" 10); [lia | exact Hok].
Defined.

(** ** What the discovery lists *)

Lemma any_keyword_described (port : ListPortInfo.t) (d : string) (keywords : list string) :
  ListPortInfo.description port = Some d →
  any_keyword port keywords
  = Return (existsb (λ keyword, Py.contains keyword (Py.lower d)) keywords).
Proof.
  intros Hd. induction keywords as [|k keywords IH]; [done|].
  cbn [any_keyword existsb]. unfold description_lower. rewrite Hd.
  cbn [outcome_bind]. by destruct (Py.contains k (Py.lower d)).
Qed.

Lemma any_keyword_undescribed (port : ListPortInfo.t) :
  ListPortInfo.description port = None →
  ∃ e, any_keyword port FILTER_KEYWORDS = Raise e.
Proof.
  intros Hd. cbn [any_keyword FILTER_KEYWORDS]. unfold description_lower.
  rewrite Hd. by eexists.
Qed.

Lemma keyword_hit_default (port : ListPortInfo.t) (d : string) :
  ListPortInfo.description port = Some d → keyword_hit d = true →
  description_or_default port = d.
Proof.
  intros Hd Hhit. unfold description_or_default. rewrite Hd.
  by destruct d.
Qed.

(** With every description present the loop keeps, in order, the entries
    of the ports whose description has a keyword in it. *)
Lemma collect_ports_described (ports : list ListPortInfo.t) :
  Forall (λ port, is_Some (ListPortInfo.description port)) ports →
  ∀ acc, collect_ports ports acc = Return (acc ++ omap listed_entry ports).
Proof.
  induction 1 as [|port ports [d Hd] _ IH]; intros acc.
  - cbn. by rewrite app_nil_r.
  - assert (Hentry : listed_entry port =
              if keyword_hit d
              then Some {| device := ListPortInfo.device port; description := d |}
              else None)
      by (unfold listed_entry; by rewrite Hd).
    cbn [collect_ports omap list_omap].
    rewrite (any_keyword_described port d), Hentry by done.
    cbn [outcome_bind]. fold (keyword_hit d).
    destruct (keyword_hit d) eqn:Hhit; [|apply IH].
    rewrite IH, <- app_assoc. by rewrite (keyword_hit_default port d).
Qed.

(** One port without a description makes the loop raise. *)
Lemma collect_ports_undescribed (ports : list ListPortInfo.t) :
  Exists (λ port, ListPortInfo.description port = None) ports →
  ∀ acc, ∃ e, collect_ports ports acc = Raise e.
Proof.
  induction ports as [|port ports IH]; intros Hex acc; [by inversion Hex|].
  cbn [collect_ports].
  destruct (ListPortInfo.description port) as [d|] eqn:Hd.
  - rewrite (any_keyword_described port d) by done. cbn [outcome_bind].
    assert (Hrest : Exists (λ port, ListPortInfo.description port = None) ports).
    { inversion Hex as [? ? Hnone|]; subst; [congruence | done]. }
    destruct (existsb _ FILTER_KEYWORDS); by apply IH.
  - destruct (any_keyword_undescribed port Hd) as [e ->]. by exists e.
Qed.

Lemma get_serial_ports_described (ports : list ListPortInfo.t) :
  Forall (λ port, is_Some (ListPortInfo.description port)) ports →
  get_serial_ports (Return ports)
  = Return (sort_by_key device (omap listed_entry ports)).
Proof.
  intros Hall. unfold get_serial_ports. cbn [outcome_bind].
  by rewrite (collect_ports_described ports Hall []).
Qed.

Lemma get_serial_ports_undescribed (ports : list ListPortInfo.t) :
  Exists (λ port, ListPortInfo.description port = None) ports →
  get_serial_ports (Return ports) = Return [].
Proof.
  intros Hex. unfold get_serial_ports. cbn [outcome_bind].
  destruct (collect_ports_undescribed ports Hex []) as [[cls msg] ->].
  cbn [outcome_bind]. by destruct cls.
Qed.

Lemma described_or_not (ports : list ListPortInfo.t) :
  Forall (λ port, is_Some (ListPortInfo.description port)) ports
  ∨ Exists (λ port, ListPortInfo.description port = None) ports.
Proof.
  induction ports as [|port ports [IH|IH]].
  - left. constructor.
  - destruct (ListPortInfo.description port) as [d|] eqn:Hd.
    + left. constructor; [by rewrite Hd; eauto | done].
    + right. by constructor.
  - right. by constructor 2.
Qed.

(** The list returned is always there: empty when the enumeration or the
    loop raises, the sorted entries otherwise. *)
Lemma get_serial_ports_returns (comports : outcome (list ListPortInfo.t)) :
  (get_serial_ports comports = Return []
   ∧ ∀ ports, comports = Return ports →
              Exists (λ port, ListPortInfo.description port = None) ports)
  ∨ ∃ ports,
      comports = Return ports
      ∧ Forall (λ port, is_Some (ListPortInfo.description port)) ports
      ∧ get_serial_ports comports
        = Return (sort_by_key device (omap listed_entry ports)).
Proof.
  destruct comports as [ports|[cls msg]].
  - destruct (described_or_not ports) as [Hall|Hex].
    + right. exists ports. by rewrite get_serial_ports_described.
    + left. split; [by apply get_serial_ports_undescribed|].
      by intros ? [= <-].
  - left. split; [by destruct cls | done].
Qed.

(** X8. When every enumerated port has a description, [get_serial_ports]
    returns exactly the ports whose description contains a keyword (case
    ignored), each once, with its own device name and description: the
    result is a rearrangement of the matching ports in enumeration order,
    so no matching port is lost and none is listed twice. *)
Theorem get_serial_ports_lists_matches (ports : list ListPortInfo.t) :
  Forall (λ port, is_Some (ListPortInfo.description port)) ports →
  ∃ serial_ports,
    get_serial_ports (Return ports) = Return serial_ports
    ∧ Permutation serial_ports (omap listed_entry ports)
    ∧ ∀ info, info ∈ serial_ports ↔
        ∃ port d, port ∈ ports
                  ∧ ListPortInfo.description port = Some d
                  ∧ (∃ keyword, keyword ∈ FILTER_KEYWORDS
                                ∧ occurs_ignoring_case keyword d)
                  ∧ info = {| device := ListPortInfo.device port;
                              description := d |}.
Proof.
  intros Hall. eexists. split; [by apply get_serial_ports_described|].
  destruct (sort_by_key_sorted device (omap listed_entry ports)) as [_ Hperm].
  split; [done|]. intros info. rewrite Hperm, list_elem_of_omap.
  split.
  - intros (port & Hin & Hentry). unfold listed_entry in Hentry.
    destruct (ListPortInfo.description port) as [d|] eqn:Hd; [|done].
    destruct (keyword_hit d) eqn:Hhit; [|done]. injection Hentry as <-.
    exists port, d. repeat split; try done.
    apply existsb_exists in Hhit as (keyword & Hk%list_elem_of_In & Hc).
    exists keyword. split; [done|].
    apply contains_lower_occurs; [by apply filter_keyword_lower | done].
  - intros (port & d & Hin & Hd & (keyword & Hk & Hocc) & ->).
    exists port. split; [done|]. unfold listed_entry. rewrite Hd.
    assert (Hhit : keyword_hit d = true).
    { apply existsb_exists. exists keyword. split; [by apply list_elem_of_In|].
      apply contains_lower_occurs; [by apply filter_keyword_lower | done]. }
    by rewrite Hhit.
Qed.

Lemma get_serial_ports_lists_matches_witness :
  Forall (λ port, is_Some (ListPortInfo.description port)) sample_ports
  ∧ ∃ serial_ports,
      get_serial_ports (Return sample_ports) = Return serial_ports
      ∧ Permutation serial_ports (omap listed_entry sample_ports)
      ∧ ∀ info, info ∈ serial_ports ↔
          ∃ port d, port ∈ sample_ports
                    ∧ ListPortInfo.description port = Some d
                    ∧ (∃ keyword, keyword ∈ FILTER_KEYWORDS
                                  ∧ occurs_ignoring_case keyword d)
                    ∧ info = {| device := ListPortInfo.device port;
                                description := d |}.
Proof.
  assert (H : Forall (λ port, is_Some (ListPortInfo.description port)) sample_ports).
  { repeat constructor; by eexists. }
  split; [exact H|].
  apply (get_serial_ports_lists_matches sample_ports H).
Defined.

(** X9. Every entry of the list returned by [get_serial_ports] is an
    enumerated port: it carries the device name and the description, not
    empty, that the enumeration reported for that port.  The replacement
    text "Serial Port <device>" therefore never appears in the result. *)
Theorem get_serial_ports_entries_enumerated
    (comports : outcome (list ListPortInfo.t))
    (serial_ports : list SerialPortInfo) (info : SerialPortInfo) :
  get_serial_ports comports = Return serial_ports →
  info ∈ serial_ports →
  ∃ ports port,
    comports = Return ports
    ∧ port ∈ ports
    ∧ ListPortInfo.device port = device info
    ∧ ListPortInfo.description port = Some (description info)
    ∧ description info ≠ "".
Proof.
  intros Hget Hin.
  destruct (get_serial_ports_returns comports)
    as [[Hnil _] | (ports & -> & Hall & Hlist)].
  - rewrite Hnil in Hget. injection Hget as <-. by apply elem_of_nil in Hin.
  - rewrite Hlist in Hget. injection Hget as <-.
    destruct (sort_by_key_sorted device (omap listed_entry ports)) as [_ Hperm].
    rewrite Hperm, list_elem_of_omap in Hin.
    destruct Hin as (port & Hport & Hentry). unfold listed_entry in Hentry.
    destruct (ListPortInfo.description port) as [d|] eqn:Hd; [|done].
    destruct (keyword_hit d) eqn:Hhit; [|done]. injection Hentry as <-.
    exists ports, port. repeat split; try done.
    cbn [description]. by intros ->.
Qed.

Lemma get_serial_ports_entries_enumerated_witness :
  get_serial_ports (Return sample_ports)
    = Return [ {| device := "/dev/ttyUSB0"; description := "USB Serial" |};
               {| device := "/dev/ttyUSB1"; description := "FTDI adapter" |} ]
  ∧ {| device := "/dev/ttyUSB1"; description := "FTDI adapter" |}
    ∈ [ {| device := "/dev/ttyUSB0"; description := "USB Serial" |};
        {| device := "/dev/ttyUSB1"; description := "FTDI adapter" |} ]
  ∧ ∃ ports port,
      Return sample_ports = Return ports
      ∧ port ∈ ports
      ∧ ListPortInfo.device port = "/dev/ttyUSB1"
      ∧ ListPortInfo.description port = Some "FTDI adapter"
      ∧ "FTDI adapter" ≠ "".
Proof.
  assert (Hin : {| device := "/dev/ttyUSB1"; description := "FTDI adapter" |}
                ∈ [ {| device := "/dev/ttyUSB0"; description := "USB Serial" |};
                    {| device := "/dev/ttyUSB1"; description := "FTDI adapter" |} ])
    by (apply list_elem_of_further, list_elem_of_here).
  split; [reflexivity|]. split; [exact Hin|].
  apply (get_serial_ports_entries_enumerated (Return sample_ports) _
           {| device := "/dev/ttyUSB1"; description := "FTDI adapter" |}
           eq_refl Hin).
Defined.

(** X10. One enumerated port whose description is [None] empties the
    whole result: the lookup of [lower] on it raises inside the [try], and
    the handler returns the empty list even when other ports match. *)
Theorem get_serial_ports_missing_description (ports : list ListPortInfo.t) :
  Exists (λ port, ListPortInfo.description port = None) ports →
  get_serial_ports (Return ports) = Return [].
Proof. apply get_serial_ports_undescribed. Qed.

Lemma get_serial_ports_missing_description_witness :
  Exists (λ port, ListPortInfo.description port = None)
    [ {| ListPortInfo.device := "/dev/ttyUSB1";
         ListPortInfo.description := Some "FTDI adapter" |};
      {| ListPortInfo.device := "/dev/ttyS0";
         ListPortInfo.description := None |} ]
  ∧ get_serial_ports
      (Return [ {| ListPortInfo.device := "/dev/ttyUSB1";
                   ListPortInfo.description := Some "FTDI adapter" |};
                {| ListPortInfo.device := "/dev/ttyS0";
                   ListPortInfo.description := None |} ])
    = Return [].
Proof.
  assert (H : Exists (λ port, ListPortInfo.description port = None)
                [ {| ListPortInfo.device := "/dev/ttyUSB1";
                     ListPortInfo.description := Some "FTDI adapter" |};
                  {| ListPortInfo.device := "/dev/ttyS0";
                     ListPortInfo.description := None |} ])
    by (apply Exists_cons_tl, Exists_cons_hd; reflexivity).
  split; [exact H|].
  apply (get_serial_ports_missing_description _ H).
Defined.

(** ** The sort is stable *)

Lemma string_ltb_leb_ne (a b c : string) :
  String.ltb a b = true → String.leb b c = true → a ≠ c.
Proof.
  unfold String.ltb, String.leb. intros Hab Hbc ->.
  rewrite (String.compare_antisym c b) in Hab.
  by destruct (String.compare b c).
Qed.

Lemma string_leb_refl (a : string) : String.leb a a = true.
Proof.
  assert (H : String.compare a a = Eq).
  { induction a as [|c a IH]; [done|]. cbn [String.compare].
    unfold Ascii.compare. by rewrite N.compare_refl. }
  unfold String.leb. by rewrite H.
Qed.

Section Stability.
Context {A : Type} (key : A → string).

Lemma filter_key_none (k : string) (l : list A) :
  Forall (λ y, key y ≠ k) l → filter (λ y, key y = k) l = [].
Proof.
  induction 1 as [|y l Hy _ IH]; [done|].
  by rewrite filter_cons_False.
Qed.

Lemma insert_by_key_filter (k : string) (x : A) (l : list A) :
  StronglySorted (key_le key) l →
  filter (λ y, key y = k) (insert_by_key key x l)
  = filter (λ y, key y = k) l ++ filter (λ y, key y = k) [x].
Proof.
  induction 1 as [|y l Hl IH Hy]; cbn [insert_by_key]; [done|].
  destruct (String.ltb (key x) (key y)) eqn:Hlt.
  - rewrite (filter_cons _ x). rewrite (filter_cons _ x []), filter_nil.
    destruct (decide (key x = k)) as [Hk|Hk]; [|by rewrite app_nil_r].
    assert (Hnone : filter (λ z, key z = k) (y :: l) = []).
    { apply filter_key_none. constructor.
      - intros Hy'. eapply (string_ltb_leb_ne (key x) (key y) (key y)); eauto.
        + apply string_leb_refl.
        + congruence.
      - eapply Forall_impl; [exact Hy|]. intros z Hz Hz'.
        eapply (string_ltb_leb_ne (key x) (key y) (key z)); eauto. congruence. }
    by rewrite Hnone.
  - rewrite !(filter_cons _ y), IH.
    by destruct (decide (key y = k)).
Qed.

Lemma sort_by_key_acc_filter (k : string) (l acc : list A) :
  StronglySorted (key_le key) acc →
  filter (λ y, key y = k) (foldl (λ sorted x, insert_by_key key x sorted) acc l)
  = filter (λ y, key y = k) acc ++ filter (λ y, key y = k) l.
Proof.
  revert acc. induction l as [|x l IH]; intros acc Hacc; cbn [foldl].
  - by rewrite filter_nil, app_nil_r.
  - rewrite IH by (by apply insert_by_key_sorted).
    rewrite insert_by_key_filter by done.
    rewrite <- app_assoc. f_equal.
    change (x :: l) with ([x] ++ l). by rewrite filter_app.
Qed.

(** Elements with the same key keep their order. *)
Lemma sort_by_key_stable (k : string) (l : list A) :
  filter (λ y, key y = k) (sort_by_key key l) = filter (λ y, key y = k) l.
Proof. apply (sort_by_key_acc_filter k l []). constructor. Qed.
End Stability.

(** X11. The sort in [get_serial_ports] is stable: when every enumerated
    port has a description, the listed entries that share a device name
    appear in the order in which the enumeration reported them. *)
Theorem get_serial_ports_stable (ports : list ListPortInfo.t) (name : string) :
  Forall (λ port, is_Some (ListPortInfo.description port)) ports →
  ∃ serial_ports,
    get_serial_ports (Return ports) = Return serial_ports
    ∧ filter (λ info, device info = name) serial_ports
      = filter (λ info, device info = name) (omap listed_entry ports).
Proof.
  intros Hall. eexists. split; [by apply get_serial_ports_described|].
  apply sort_by_key_stable.
Qed.

Lemma get_serial_ports_stable_witness :
  Forall (λ port, is_Some (ListPortInfo.description port)) sample_ports
  ∧ ∃ serial_ports,
      get_serial_ports (Return sample_ports) = Return serial_ports
      ∧ filter (λ info, device info = "/dev/ttyUSB0") serial_ports
        = filter (λ info, device info = "/dev/ttyUSB0")
            (omap listed_entry sample_ports).
Proof.
  assert (H : Forall (λ port, is_Some (ListPortInfo.description port)) sample_ports).
  { repeat constructor; by eexists. }
  split; [exact H|].
  apply (get_serial_ports_stable sample_ports "/dev/ttyUSB0" H).
Defined.

(** ** The default serial port *)

Lemma get_serial_ports_sorted (comports : outcome (list ListPortInfo.t)) :
  ∃ serial_ports,
    get_serial_ports comports = Return serial_ports
    ∧ StronglySorted device_le serial_ports.
Proof.
  destruct (get_serial_ports_returns comports)
    as [[Hnil _] | (ports & _ & _ & Hlist)].
  - exists []. split; [done | constructor].
  - eexists. split; [exact Hlist|].
    by destruct (sort_by_key_sorted device (omap listed_entry ports)).
Qed.

(** In a sorted list, the first element that passes a test is the least
    one that passes it. *)
Lemma find_least (f : SerialPortInfo → bool) (l : list SerialPortInfo)
    (x : SerialPortInfo) :
  StronglySorted device_le l → find f l = Some x →
  x ∈ l ∧ f x = true ∧ ∀ y, y ∈ l → f y = true → device_le x y.
Proof.
  induction 1 as [|a l Hl IH Ha]; [done|]. cbn [find].
  destruct (f a) eqn:Hfa.
  - intros [= <-]. split; [apply list_elem_of_here|]. split; [done|].
    intros y [->|Hy]%elem_of_cons _; [apply string_leb_refl|].
    by eapply Forall_forall in Ha.
  - intros Hfind. destruct (IH Hfind) as (Hin & Hfx & Hleast).
    split; [by apply list_elem_of_further|]. split; [done|].
    intros y [->|Hy]%elem_of_cons Hfy; [congruence | by apply Hleast].
Qed.

Lemma find_none_all (f : SerialPortInfo → bool) (l : list SerialPortInfo) :
  find f l = None ↔ ∀ y, y ∈ l → f y = false.
Proof.
  induction l as [|a l IH]; cbn [find].
  - split; [by intros _ y ?%elem_of_nil | done].
  - destruct (f a) eqn:Hfa.
    + split; [done|]. intros H. specialize (H a (list_elem_of_here _ _)). congruence.
    + rewrite IH. split.
      * intros H y [->|Hy]%elem_of_cons; [done | by apply H].
      * intros H y Hy. apply H. by apply list_elem_of_further.
Qed.

(** The answer of [get_default_serial_port], related to the list it reads. *)
Lemma get_default_serial_port_answer (comports : outcome (list ListPortInfo.t)) :
  ∃ answer,
    get_default_serial_port comports = Return answer
    ∧ (answer = None ↔ get_serial_ports comports = Return [])
    ∧ ∀ d, answer = Some d →
           ∃ serial_ports info,
             get_serial_ports comports = Return serial_ports
             ∧ info ∈ serial_ports ∧ device info = d.
Proof.
  destruct (get_serial_ports_sorted comports) as (l & Hget & Hsorted).
  unfold get_default_serial_port. rewrite Hget. cbn [outcome_bind].
  destruct l as [|first l]; [exists None; by repeat split|].
  destruct (find _ (first :: l)) as [x|] eqn:H1.
  { destruct (find_least _ _ _ Hsorted H1) as (Hin & _ & _).
    exists (Some (device x)). split; [done|]. split; [by split|].
    intros d [= <-]. by exists (first :: l), x. }
  fold mentions_usb.
  destruct (find mentions_usb (first :: l)) as [x|] eqn:H2.
  { destruct (find_least _ _ _ Hsorted H2) as (Hin & _ & _).
    exists (Some (device x)). split; [done|]. split; [by split|].
    intros d [= <-]. by exists (first :: l), x. }
  exists (Some (device first)). split; [done|]. split; [by split|].
  intros d [= <-]. exists (first :: l), first.
  split; [done|]. split; [apply list_elem_of_here | done].
Qed.

(** X12. [get_default_serial_port] never raises.  It answers [None]
    exactly when [get_serial_ports] lists nothing for the same
    enumeration, and any device it answers is the device of a listed
    entry. *)
Theorem get_default_serial_port_listed (comports : outcome (list ListPortInfo.t)) :
  ∃ answer,
    get_default_serial_port comports = Return answer
    ∧ (answer = None ↔ get_serial_ports comports = Return [])
    ∧ ∀ d, answer = Some d →
           ∃ serial_ports info,
             get_serial_ports comports = Return serial_ports
             ∧ info ∈ serial_ports ∧ device info = d.
Proof. apply get_default_serial_port_answer. Qed.

(** X13. When some listed device name contains [/dev/ttyUSB0], the
    default port is such a name, and the least of them in the order of the
    list. *)
Theorem get_default_serial_port_prefers_ttyUSB0
    (comports : outcome (list ListPortInfo.t)) (serial_ports : list SerialPortInfo)
    (witness : SerialPortInfo) :
  get_serial_ports comports = Return serial_ports →
  witness ∈ serial_ports →
  Py.contains "/dev/ttyUSB0" (device witness) = true →
  ∃ chosen,
    chosen ∈ serial_ports
    ∧ get_default_serial_port comports = Return (Some (device chosen))
    ∧ Py.contains "/dev/ttyUSB0" (device chosen) = true
    ∧ ∀ info, info ∈ serial_ports →
              Py.contains "/dev/ttyUSB0" (device info) = true →
              String.leb (device chosen) (device info) = true.
Proof.
  intros Hget Hin Hw.
  destruct (get_serial_ports_sorted comports) as (l & Hget' & Hsorted).
  rewrite Hget in Hget'. injection Hget' as <-.
  unfold get_default_serial_port. rewrite Hget. cbn [outcome_bind].
  destruct serial_ports as [|first l]; [by apply elem_of_nil in Hin|].
  destruct (find _ (first :: l)) as [x|] eqn:H1.
  - destruct (find_least _ _ _ Hsorted H1) as (Hx & Hfx & Hleast).
    exists x. repeat split; try done.
  - pose proof (proj1 (find_none_all _ _) H1 witness Hin) as Hno.
    cbn beta in Hno. congruence.
Qed.

Lemma get_default_serial_port_prefers_ttyUSB0_witness :
  get_serial_ports (Return sample_ports)
    = Return [ {| device := "/dev/ttyUSB0"; description := "USB Serial" |};
               {| device := "/dev/ttyUSB1"; description := "FTDI adapter" |} ]
  ∧ {| device := "/dev/ttyUSB0"; description := "USB Serial" |}
    ∈ [ {| device := "/dev/ttyUSB0"; description := "USB Serial" |};
        {| device := "/dev/ttyUSB1"; description := "FTDI adapter" |} ]
  ∧ Py.contains "/dev/ttyUSB0" "/dev/ttyUSB0" = true
  ∧ ∃ chosen,
      chosen ∈ [ {| device := "/dev/ttyUSB0"; description := "USB Serial" |};
                 {| device := "/dev/ttyUSB1"; description := "FTDI adapter" |} ]
      ∧ get_default_serial_port (Return sample_ports)
        = Return (Some (device chosen))
      ∧ Py.contains "/dev/ttyUSB0" (device chosen) = true
      ∧ ∀ info,
          info ∈ [ {| device := "/dev/ttyUSB0"; description := "USB Serial" |};
                   {| device := "/dev/ttyUSB1"; description := "FTDI adapter" |} ] →
          Py.contains "/dev/ttyUSB0" (device info) = true →
          String.leb (device chosen) (device info) = true.
Proof.
  assert (Hin : {| device := "/dev/ttyUSB0"; description := "USB Serial" |}
                ∈ [ {| device := "/dev/ttyUSB0"; description := "USB Serial" |};
                    {| device := "/dev/ttyUSB1"; description := "FTDI adapter" |} ])
    by apply list_elem_of_here.
  split; [reflexivity|]. split; [exact Hin|]. split; [reflexivity|].
  apply (get_default_serial_port_prefers_ttyUSB0 (Return sample_ports) _
           {| device := "/dev/ttyUSB0"; description := "USB Serial" |}
           eq_refl Hin eq_refl).
Defined.

(** X14. When no listed device name contains [/dev/ttyUSB0] and the list
    is not empty, the default port is the least listed device whose name
    contains [ttyUSB] or whose description contains [USB] (in capitals),
    if there is one, and the least listed device of all otherwise. *)
Theorem get_default_serial_port_fallback
    (comports : outcome (list ListPortInfo.t)) (serial_ports : list SerialPortInfo) :
  get_serial_ports comports = Return serial_ports →
  serial_ports ≠ [] →
  (∀ info, info ∈ serial_ports →
           Py.contains "/dev/ttyUSB0" (device info) = false) →
  ∃ chosen,
    chosen ∈ serial_ports
    ∧ get_default_serial_port comports = Return (Some (device chosen))
    ∧ (mentions_usb chosen = true
       ∧ (∀ info, info ∈ serial_ports → mentions_usb info = true →
                  String.leb (device chosen) (device info) = true)
       ∨ (∀ info, info ∈ serial_ports → mentions_usb info = false)
         ∧ (∀ info, info ∈ serial_ports →
                    String.leb (device chosen) (device info) = true)).
Proof.
  intros Hget Hne Hno.
  destruct (get_serial_ports_sorted comports) as (l & Hget' & Hsorted).
  rewrite Hget in Hget'. injection Hget' as <-.
  unfold get_default_serial_port. rewrite Hget. cbn [outcome_bind].
  destruct serial_ports as [|first l]; [done|].
  rewrite (proj2 (find_none_all _ _) Hno).
  fold mentions_usb.
  destruct (find mentions_usb (first :: l)) as [x|] eqn:H2.
  - destruct (find_least _ _ _ Hsorted H2) as (Hx & Hfx & Hleast).
    exists x. repeat split; try done. by left.
  - exists first. split; [apply list_elem_of_here|]. split; [done|]. right.
    split; [by apply find_none_all|].
    intros info [->|Hin]%elem_of_cons; [apply string_leb_refl|].
    apply StronglySorted_inv in Hsorted as [_ Hfirst].
    by eapply Forall_forall in Hfirst.
Qed.

Lemma get_default_serial_port_fallback_witness :
  get_serial_ports (Return acm_ports) = Return acm_listed
  ∧ acm_listed ≠ []
  ∧ (∀ info, info ∈ acm_listed →
             Py.contains "/dev/ttyUSB0" (device info) = false)
  ∧ ∃ chosen,
      chosen ∈ acm_listed
      ∧ get_default_serial_port (Return acm_ports) = Return (Some (device chosen))
      ∧ (mentions_usb chosen = true
         ∧ (∀ info, info ∈ acm_listed → mentions_usb info = true →
                    String.leb (device chosen) (device info) = true)
         ∨ (∀ info, info ∈ acm_listed → mentions_usb info = false)
           ∧ (∀ info, info ∈ acm_listed →
                      String.leb (device chosen) (device info) = true)).
Proof.
  assert (Hno : ∀ info, info ∈ acm_listed →
                        Py.contains "/dev/ttyUSB0" (device info) = false).
  { intros info Hin. unfold acm_listed in Hin. split_elem Hin; by subst. }
  split; [reflexivity|]. split; [discriminate|]. split; [exact Hno|].
  apply (get_default_serial_port_fallback (Return acm_ports) acm_listed eq_refl);
    [discriminate | exact Hno].
Defined.

(** ** The environment variables of the port names *)

(** [str] of an integer determines the integer. *)
Lemma str_int_inj (a b : Z) : Py.str_int a = Py.str_int b → a = b.
Proof.
  unfold Py.str_int. intros H. apply DecimalZ.to_int_inj.
  assert (Hnn : ∀ z, Z.to_int z ≠ Decimal.Pos Decimal.Nil
                     ∧ Z.to_int z ≠ Decimal.Neg Decimal.Nil).
  { intros [|p|p]; split; try discriminate;
      cbn [Z.to_int]; intros [= Hp]; by apply DecimalPos.Unsigned.to_uint_nonnil in Hp. }
  apply (f_equal NilZero.int_of_string) in H.
  rewrite !NilZero.isi in H by apply Hnn.
  by injection H.
Qed.

Lemma string_app_inv_tail (a b t : string) : a +:+ t = b +:+ t → a = b.
Proof.
  intros H. apply (f_equal String.list_ascii_of_string) in H.
  rewrite !list_ascii_of_string_app in H. apply app_inv_tail in H.
  apply (f_equal String.string_of_list_ascii) in H.
  by rewrite !String.string_of_list_ascii_of_string in H.
Qed.

Lemma env_key_inj (p q : Z) : env_key p = env_key q → p = q.
Proof.
  unfold env_key. intros H. apply str_int_inj.
  apply (string_app_inv_tail _ _ "_NAME").
  simpl in H. by injection H.
Qed.

(** X15. Each port has its own environment variable.  Setting the
    variable of a port p in 1..10 to a non-empty value makes that value the
    name of port p, and leaves the name of every other port as it was. *)
Theorem get_port_names_from_env_update
    (environ : gmap string string) (p : Z) (value : string) :
  1 ≤ p ≤ 10 → value ≠ "" →
  get_port_names_from_env (<[env_key p := value]> environ) !! p = Some value
  ∧ ∀ q, q ≠ p →
         get_port_names_from_env (<[env_key p := value]> environ) !! q
         = get_port_names_from_env environ !! q.
Proof.
  intros Hp Hv. split.
  - rewrite get_port_names_from_env_lookup, decide_True by done.
    unfold port_name. fold (env_key p). rewrite lookup_insert_eq.
    by destruct value.
  - intros q Hq. rewrite !get_port_names_from_env_lookup.
    destruct (decide (1 ≤ q ≤ 10)); [|done].
    unfold port_name. fold (env_key q).
    rewrite lookup_insert_ne; [done|].
    intros Heq. by apply env_key_inj in Heq.
Qed.

Lemma get_port_names_from_env_update_witness :
  1 ≤ 3 ≤ 10 ∧ "db" ≠ ""
  ∧ get_port_names_from_env (<[env_key 3 := "db"]> ∅) !! 3 = Some "db"
  ∧ ∀ q, q ≠ 3 →
         get_port_names_from_env (<[env_key 3 := "db"]> ∅) !! q
         = get_port_names_from_env ∅ !! q.
Proof.
  split; [lia|]. split; [discriminate|].
  apply (get_port_names_from_env_update ∅ 3 "db"); [lia | discriminate].
Defined.

(** ** The HTTP endpoints *)

(** [switch_kvm_port] returns for every port that can be printed, and only
    extends the log. *)
Lemma switch_kvm_port_returns T serial_port port_num tr :
  Z.abs port_num < Py.int_str_bound →
  ∃ resp evs,
    switch_kvm_port T serial_port port_num tr = (Return resp, tr ++ evs)
    ∧ (1 ≤ port_num ≤ 10 →
         command resp = protocol_command port_num
         ∧ ∀ msg, error resp = Some msg →
                  ∃ e, msg = fault_message serial_port e).
Proof.
  intros Hsmall.
  destruct (validate_port_number port_num) eqn:V.
  - apply validate_port_number_true in V.
    destruct (switch_kvm_port_valid T serial_port port_num tr V)
      as (r & evs & Hpath & Hrun).
    eexists _, evs. split; [exact Hrun|]. intros _.
    destruct r as [resp|e].
    + apply transaction_path_return in Hpath as (? & ? & _ & _ & ->).
      by split.
    + split; [done|]. intros msg [= <-]. by exists e.
  - exists (failure port_num ""
              ("Invalid port number: " +:+ Py.str_int port_num +:+ ". Must be 1-10.")), [].
    rewrite app_nil_r. split; [by apply switch_kvm_port_rejects|].
    apply validate_port_number_false in V. tauto.
Qed.

(** X16. The [/switch] handler first prints the port into its log line.
    For a port of more than 4300 decimal digits, which the declaration of
    the parameter does not accept, that raises, and the handler answers 500
    and makes no call on the device, whatever the path.  For every other
    port it answers by the existence check alone: with the path missing it
    raises a 400 naming the path and makes no call on the device; with the
    check itself raising it raises a 500 and makes no call either; with the
    path present it returns, with status 200, exactly the result of
    [switch_kvm_port], also when that result is a failure. *)
Theorem switch_port_outcomes
    (path_exists : string → outcome bool) (T : Transport)
    (serial_port : string) (port : Z) (tr : list event) :
  match Py.format_int port with
  | Raise e =>
      Py.int_str_bound ≤ Z.abs port
      ∧ query_accepts port_query port = false
      ∧ switch_port path_exists T serial_port port tr
        = (HTTPException 500 ("Switch operation failed: " +:+ exn_str e), tr)
  | Return _ =>
      Z.abs port < Py.int_str_bound
      ∧ match path_exists serial_port with
        | Return true =>
            ∃ result evs,
              switch_kvm_port T serial_port port tr = (Return result, tr ++ evs)
              ∧ switch_port path_exists T serial_port port tr
                = (Respond result, tr ++ evs)
        | Return false =>
            switch_port path_exists T serial_port port tr
            = (HTTPException 400
                 ("Serial port " +:+ serial_port +:+ " does not exist"),
               tr)
        | Raise e =>
            switch_port path_exists T serial_port port tr
            = (HTTPException 500 ("Switch operation failed: " +:+ exn_str e), tr)
        end
  end.
Proof.
  unfold switch_port, Py.format_int.
  destruct (Z.ltb_spec (Z.abs port) Py.int_str_bound) as [Hsmall|Hlarge].
  - split; [done|].
    destruct (path_exists serial_port) as [[|]|e]; try reflexivity.
    destruct (switch_kvm_port_returns T serial_port port tr Hsmall)
      as (resp & evs & Hrun & _).
    exists resp, evs. by rewrite Hrun.
  - split; [done|]. split; [|reflexivity].
    pose proof int_str_bound_large.
    unfold query_accepts, port_query. cbn [query_ge query_le].
    apply andb_false_iff. rewrite Z.leb_gt, Z.leb_gt. lia.
Qed.

(** X17. Behind the range constraint of the [port] query parameter
    (1 to 10) and for a path that exists, the [/switch] handler always
    returns a result whose command is the table entry of the port; an
    error in it is one of the three transport texts, never the
    invalid-port text, which starts with another letter. *)
Theorem switch_port_never_invalid_port
    (path_exists : string → outcome bool) (T : Transport)
    (serial_port : string) (port : Z) (tr : list event) :
  1 ≤ port ≤ 10 →
  path_exists serial_port = Return true →
  ∃ result evs,
    switch_port path_exists T serial_port port tr = (Respond result, tr ++ evs)
    ∧ PORT_COMMANDS !! port = Some (command result)
    ∧ ∀ msg, error result = Some msg →
             String.prefix "Invalid port number" msg = false
             ∧ (String.prefix "Serial communication failed: " msg = true
                ∨ String.prefix "Access denied to serial port " msg = true
                ∨ String.prefix "Unexpected error: " msg = true).
Proof.
  intros V Hexists. unfold switch_port.
  rewrite (format_int_small port (valid_port_printable port V)), Hexists.
  destruct (switch_kvm_port_returns T serial_port port tr
              (valid_port_printable port V))
    as (resp & evs & Hrun & Hvalid).
  destruct (Hvalid V) as [Hcmd Herr].
  exists resp, evs. rewrite Hrun. split; [done|]. split.
  - rewrite Hcmd, PORT_COMMANDS_lookup.
    apply validate_port_number_true in V. by rewrite V.
  - intros msg Hmsg. destruct (Herr msg Hmsg) as [[cls text] ->].
    unfold fault_message. destruct cls; cbn [exn_cls exn_str]; split; try done.
    + left. apply prefix_app. by eexists.
    + right. left. apply prefix_app. by eexists.
    + right. right. apply prefix_app. by eexists.
Qed.

Lemma switch_port_never_invalid_port_witness :
  1 ≤ 2 ≤ 10
  ∧ sample_fs "/dev/ttyUSB0" = Return true
  ∧ ∃ result evs,
      switch_port sample_fs
        (failing_write_transport (mk_exn SerialException "Write timeout"))
        "/dev/ttyUSB0" 2 []
      = (Respond result, [] ++ evs)
      ∧ PORT_COMMANDS !! 2 = Some (command result)
      ∧ ∀ msg, error result = Some msg →
               String.prefix "Invalid port number" msg = false
               ∧ (String.prefix "Serial communication failed: " msg = true
                  ∨ String.prefix "Access denied to serial port " msg = true
                  ∨ String.prefix "Unexpected error: " msg = true).
Proof.
  split; [lia|]. split; [reflexivity|].
  apply (switch_port_never_invalid_port sample_fs
           (failing_write_transport (mk_exn SerialException "Write timeout"))
           "/dev/ttyUSB0" 2 []); [lia | reflexivity].
Defined.


(** ** The port listing *)

Lemma commands_by_name_dom :
  dom commands_by_name = list_to_set (Py.str_int <$> AVAILABLE_PORTS).
Proof. vm_compute. reflexivity. Qed.

Lemma commands_by_name_lookup (p : Z) :
  1 ≤ p ≤ 10 → commands_by_name !! Py.str_int p = PORT_COMMANDS !! p.
Proof. intros H. port_cases p H; vm_compute; reflexivity. Qed.

(** X19. The three fields of the [/ports] response describe the same ten
    ports.  [available_ports] is 1 to 10; [commands] has exactly ten keys,
    the decimal texts of those ports, and under the text of a port the
    command the table holds for it; [port_names] names every one of them.
    The handler never raises. *)
Theorem get_ports_consistent (environ : gmap string string) :
  ∃ r,
    get_ports environ = Respond r
    ∧ (∀ p, p ∈ PortsResponse.available_ports r ↔ 1 ≤ p ≤ 10)
    ∧ size (PortsResponse.commands r) = 10%nat
    ∧ (∀ key, is_Some (PortsResponse.commands r !! key) ↔
              ∃ p, p ∈ PortsResponse.available_ports r ∧ key = Py.str_int p)
    ∧ ∀ p, p ∈ PortsResponse.available_ports r →
           is_Some (PORT_COMMANDS !! p)
           ∧ PortsResponse.commands r !! Py.str_int p = PORT_COMMANDS !! p
           ∧ is_Some (PortsResponse.port_names r !! p).
Proof.
  eexists. split; [reflexivity|].
  cbn [PortsResponse.available_ports PortsResponse.commands PortsResponse.port_names].
  assert (Hrange : ∀ p, p ∈ AVAILABLE_PORTS ↔ 1 ≤ p ≤ 10).
  { intros p. unfold AVAILABLE_PORTS. rewrite elem_of_seqZ. lia. }
  split; [exact Hrange|]. split; [by vm_compute|]. split.
  - intros key. rewrite <- elem_of_dom, commands_by_name_dom.
    rewrite elem_of_list_to_set, list_elem_of_fmap.
    split; intros (p & ? & ?); by exists p.
  - intros p Hp%Hrange. split; [|split].
    + rewrite PORT_COMMANDS_lookup.
      apply validate_port_number_true in Hp. rewrite Hp. eauto.
    + by apply commands_by_name_lookup.
    + rewrite get_port_names_from_env_lookup, decide_True by done. eauto.
Qed.

(** ** The serial port listing and the health check *)

(** X20. The [/serial_ports] handler never raises a 500: both helpers
    always return.  Its two fields come from two separate enumerations;
    when both enumerations answer the same, the default port is absent
    exactly when the list is empty, and otherwise is the device of one of
    the listed entries. *)
Theorem get_serial_ports_endpoint_responds
    (comports1 comports2 : outcome (list ListPortInfo.t)) :
  ∃ r,
    get_serial_ports_endpoint comports1 comports2 = Respond r
    ∧ get_serial_ports comports1 = Return (SerialPortsResponse.serial_ports r)
    ∧ get_default_serial_port comports2
      = Return (SerialPortsResponse.default_port r)
    ∧ (comports1 = comports2 →
         (SerialPortsResponse.default_port r = None
          ↔ SerialPortsResponse.serial_ports r = [])
         ∧ ∀ d, SerialPortsResponse.default_port r = Some d →
                ∃ info, info ∈ SerialPortsResponse.serial_ports r
                        ∧ device info = d).
Proof.
  destruct (get_serial_ports_sorted comports1) as (l & Hget & _).
  destruct (get_default_serial_port_answer comports2)
    as (answer & Hdef & Hnone & Hsome).
  unfold get_serial_ports_endpoint. rewrite Hget, Hdef. cbn [outcome_bind].
  eexists. split; [reflexivity|].
  cbn [SerialPortsResponse.serial_ports SerialPortsResponse.default_port].
  split; [done|]. split; [done|]. intros <-.
  rewrite Hget in Hnone, Hsome. split.
  - rewrite Hnone. split; [by intros [= ->] | by intros ->].
  - intros d Hd. destruct (Hsome d Hd) as (l' & info & [= <-] & Hin & Hdev).
    by exists info.
Qed.

Lemma length_omap_le {A B} (f : A → option B) (l : list A) :
  (length (omap f l) ≤ length l)%nat.
Proof.
  induction l as [|x l IH]; [done|]. cbn [omap list_omap].
  destruct (f x); cbn [length]; lia.
Qed.

(** X21. [health_check] never raises and always reports the status
    "healthy", also when the port enumeration fails.  Its port count is
    the length of the list [get_serial_ports] returns: zero when the
    enumeration raises, and never more than the number of enumerated
    ports. *)
Theorem health_check_healthy
    (version_info : Z * Z * Z) (comports : outcome (list ListPortInfo.t)) :
  ∃ r serial_ports,
    health_check version_info comports = Return r
    ∧ HealthResponse.status r = "healthy"
    ∧ get_serial_ports comports = Return serial_ports
    ∧ HealthResponse.serial_ports_count r = Z.of_nat (length serial_ports)
    ∧ (∀ e, comports = Raise e → HealthResponse.serial_ports_count r = 0)
    ∧ ∀ ports, comports = Return ports →
               0 ≤ HealthResponse.serial_ports_count r ≤ Z.of_nat (length ports).
Proof.
  destruct version_info as [[major minor] micro].
  unfold health_check.
  destruct (get_serial_ports_returns comports)
    as [[Hnil _] | (ports & -> & _ & Hlist)].
  - rewrite Hnil. cbn [outcome_bind]. do 2 eexists.
    split; [reflexivity|]. do 4 (split; [done|]).
    intros ports _. cbn. lia.
  - rewrite Hlist. cbn [outcome_bind]. do 2 eexists.
    split; [reflexivity|]. do 3 (split; [done|]). split; [done|].
    intros ? [= <-]. cbn [HealthResponse.serial_ports_count].
    destruct (sort_by_key_sorted device (omap listed_entry ports)) as [_ Hperm].
    rewrite (Permutation_length Hperm).
    pose proof (length_omap_le listed_entry ports). lia.
Qed.

(** ** Failing calls *)

(** Enumerates the ways a concrete log splits as [before ++ ev :: after]
    and runs [k] on each. *)
Ltac split_log before Heq k :=
  destruct before as [|? before]; cbn [app] in Heq;
  [ first [ discriminate Heq | injection Heq as ? ?; subst; k ]
  | first [ discriminate Heq | injection Heq as ? Heq; subst; split_log before Heq k ] ].

Lemma transaction_path_fail_fast T serial_port port_num cmd data r evs :
  transaction_path T serial_port port_num cmd data r evs →
  ∀ before ev after,
    evs = before ++ ev :: after → call_raises T ev →
    after = [] ∨ after = [EClose].
Proof.
  intros Hpath.
  inversion Hpath as [e Hopen | ? evs' Hopen Hex Hclose | ? evs' ? Hopen Hex Hclose];
    subst.
  - intros before ev after Heq Hraise.
    split_log before Heq ltac:(by left).
  - inversion Hex; subst; intros before ev after Heq Hraise; cbn [app] in Heq;
      split_log before Heq
        ltac:(cbn [call_raises] in Hraise; destruct Hraise as [? Hraise];
              first [congruence | by left | by right]).
  - inversion Hex; subst; intros before ev after Heq Hraise; cbn [app] in Heq;
      split_log before Heq
        ltac:(cbn [call_raises] in Hraise; destruct Hraise as [? Hraise];
              first [congruence | by left | by right]).
Qed.

(** X22. The transaction stops at the first call that raises: in the log
    of one [switch_kvm_port], a call that raised is followed by nothing, or
    by the close alone.  So nothing is written after a failed reset, and
    nothing is read after a failed write, flush or sleep. *)
Theorem switch_kvm_port_fail_fast
    (T : Transport) (serial_port : string) (port_num : Z)
    (r : outcome SwitchResponse) (tr before after : list event) (ev : event) :
  run (switch_kvm_port T serial_port port_num) = (r, tr) →
  tr = before ++ ev :: after →
  call_raises T ev →
  after = [] ∨ after = [EClose].
Proof.
  intros Hrun Heq Hraise.
  destruct (run_switch_kvm_port_cases _ _ _ _ _ Hrun)
    as [[V ->] | (V & r' & Hpath & _)].
  - by destruct before.
  - by eapply transaction_path_fail_fast.
Qed.

Lemma switch_kvm_port_fail_fast_witness :
  run (switch_kvm_port
         (failing_write_transport (mk_exn SerialException "Write timeout"))
         "/dev/ttyUSB0" 3)
    = (Return {| success := false; port := 3; command := "X3,1$"; response := "";
                 error := Some "Serial communication failed: Write timeout" |},
       [EOpen "/dev/ttyUSB0" SERIAL_CONFIG; EResetInput; EResetOutput;
        EWrite [x58; x33; x2c; x31; x24]; EClose])
  ∧ [EOpen "/dev/ttyUSB0" SERIAL_CONFIG; EResetInput; EResetOutput;
     EWrite [x58; x33; x2c; x31; x24]; EClose]
    = [EOpen "/dev/ttyUSB0" SERIAL_CONFIG; EResetInput; EResetOutput]
      ++ EWrite [x58; x33; x2c; x31; x24] :: [EClose]
  ∧ call_raises
      (failing_write_transport (mk_exn SerialException "Write timeout"))
      (EWrite [x58; x33; x2c; x31; x24])
  ∧ ([EClose] = [] ∨ [EClose] = [EClose]).
Proof.
  assert (Hraise : call_raises
            (failing_write_transport (mk_exn SerialException "Write timeout"))
            (EWrite [x58; x33; x2c; x31; x24]))
    by (by eexists).
  split; [reflexivity|]. split; [reflexivity|]. split; [exact Hraise|].
  apply (switch_kvm_port_fail_fast
           (failing_write_transport (mk_exn SerialException "Write timeout"))
           "/dev/ttyUSB0" 3 _ _
           [EOpen "/dev/ttyUSB0" SERIAL_CONFIG; EResetInput; EResetOutput]
           [EClose] (EWrite [x58; x33; x2c; x31; x24]) eq_refl eq_refl Hraise).
Defined.

(** X23. An exception raised by the close replaces whatever the
    transaction had produced: for a valid port, when the open returns and
    the close raises, the result is a failure carrying the text for the
    exception of the close, also when the read had returned a reply. *)
Theorem switch_kvm_port_close_failure
    (T : Transport) (serial_port : string) (port_num : Z) (e : exn) :
  1 ≤ port_num ≤ 10 →
  serial_open T serial_port SERIAL_CONFIG = Return () →
  serial_close T = Raise e →
  ∃ before,
    run (switch_kvm_port T serial_port port_num) =
      (Return {| success := false; port := port_num;
                 command := protocol_command port_num; response := "";
                 error := Some
                   match exn_cls e with
                   | PermissionError =>
                       "Access denied to serial port " +:+ serial_port +:+ ": "
                       +:+ exn_str e
                   | SerialException =>
                       "Serial communication failed: " +:+ exn_str e
                   | Exception => "Unexpected error: " +:+ exn_str e
                   end |},
       before ++ [EClose]).
Proof.
  intros V Hopen Hclose.
  destruct (switch_kvm_port_valid T serial_port port_num [] V)
    as (r & evs & Hpath & Hrun).
  unfold run. rewrite Hrun. cbn [app].
  inversion Hpath as [| | ? evs' e' _ _ Hclose']; subst; try congruence.
  assert (e' = e) as -> by congruence.
  exists (EOpen serial_port SERIAL_CONFIG :: evs').
  cbn [settle app]. unfold failure, fault_message. by destruct (exn_cls e).
Qed.

Lemma switch_kvm_port_close_failure_witness :
  1 ≤ 1 ≤ 10
  ∧ serial_open (failing_close_transport ok_reply (mk_exn Exception "I/O error"))
      "/dev/ttyUSB0" SERIAL_CONFIG = Return ()
  ∧ serial_close (failing_close_transport ok_reply (mk_exn Exception "I/O error"))
    = Raise (mk_exn Exception "I/O error")
  ∧ ∃ before,
      run (switch_kvm_port
             (failing_close_transport ok_reply (mk_exn Exception "I/O error"))
             "/dev/ttyUSB0" 1) =
        (Return {| success := false; port := 1; command := "X1,1$";
                   response := ""; error := Some "Unexpected error: I/O error" |},
         before ++ [EClose]).
Proof.
  split; [lia|]. split; [reflexivity|]. split; [reflexivity|].
  apply (switch_kvm_port_close_failure
           (failing_close_transport ok_reply (mk_exn Exception "I/O error"))
           "/dev/ttyUSB0" 1 (mk_exn Exception "I/O error"));
    [lia | reflexivity | reflexivity].
Defined.
